(** * OpenPrescribing analyse-to-api: a shallow embedding of [analyse-to-api.py]

    The program takes an OpenPrescribing "analyse" URL, decodes the
    selection held in its fragment, and issues a bounded number of
    requests to the OpenPrescribing API, whose answers it merges into one
    table.

    Conventions of the embedding.
    - A Python [str] is a Rocq [string], one [ascii] per character; the
      identifiers and URLs of the application are ASCII.
    - [len] of a sequence is a [nat]; other Python integers are [Z].
    - A [dict] read by key only is a [gmap]; a [dict] whose key order is
      observable (a JSON object turned into table columns) is an
      association list in insertion order.
    - Everything the program does to the outside world (Streamlit calls,
      HTTP requests) is an [event]; a run is a function from the trace so
      far to the extended trace and either a result or the exception that
      ended the run. *)

From Stdlib Require Import ZArith String Ascii List Bool Lia.
From Stdlib Require Import Floats.SpecFloat.
From stdpp Require Import gmap strings list.
Import ListNotations.

Local Open Scope string_scope.
Local Open Scope list_scope.

(** ** Constants *)

Definition API_CALL_LIMIT : nat := 100.

(** ** The call budget *)

Definition calculate_api_calls (org_ids num_ids : list string) : nat :=
  length num_ids + (length org_ids * length num_ids).

(** ** The code-type heuristic

    The [for] loop of [check_for_mixed_code_types] updates two flags; the
    loop is a fold over [codes] whose state is the pair
    [(has_vmp, has_shorter_code)]. *)

Module MixedCodes.

Definition step (flags : bool * bool) (code : string) : bool * bool :=
  let '(has_vmp, has_shorter_code) := flags in
  if Nat.eqb (String.length code) 15 then (true, has_shorter_code)
  else if Nat.ltb (String.length code) 15 then (has_vmp, true)
  else (has_vmp, has_shorter_code).

Definition scan (codes : list string) : bool * bool :=
  fold_left step codes (false, false).

End MixedCodes.

Definition check_for_mixed_code_types (codes : list string) : bool :=
  let '(has_vmp, has_shorter_code) := MixedCodes.scan codes in
  if has_vmp && has_shorter_code then true else false.

(** ** Exceptions and fallible results *)

Inductive exn : Type :=
| ValueError          (* urllib rejects the URL *)
| IndexError          (* [l[0]] on an empty list *)
| KeyError            (* a column label that the frame does not have *)
| ZeroDivisionError   (* [call_count / total_calls] with no call planned *)
| MergeError          (* pandas: the suffixes would duplicate a column *)
| RequestFault.       (* [requests.get] or [response.json()] raised *)

Inductive result (A : Type) : Type :=
| Ok (a : A)
| Raise (e : exn).

Arguments Ok {A} a.
Arguments Raise {A} e.

(** ** Strings: the [str] methods the program and [urllib.parse] use *)

Module Str.

(** [c in s] *)
Fixpoint contains (c : ascii) (s : string) : bool :=
  match s with
  | EmptyString => false
  | String d rest => Ascii.eqb d c || contains c rest
  end.

(** [s.split(sep)]: never the empty list *)
Fixpoint split (sep : ascii) (s : string) : list string :=
  match s with
  | EmptyString => [EmptyString]
  | String c rest =>
      if Ascii.eqb c sep then EmptyString :: split sep rest
      else match split sep rest with
           | hd :: tl => String c hd :: tl
           | [] => [String c EmptyString]
           end
  end.

(** [s.split(sep, 1)] when [sep in s]: the text before the first [sep]
    and the text after it; [None] when [s] has no [sep] (the Python list
    then has one element). *)
Fixpoint split_once (sep : ascii) (s : string) : option (string * string) :=
  match s with
  | EmptyString => None
  | String c rest =>
      if Ascii.eqb c sep then Some (EmptyString, rest)
      else match split_once sep rest with
           | Some (before, after) => Some (String c before, after)
           | None => None
           end
  end.

(** [s.replace(old, new)] for one-character [old] and [new] *)
Fixpoint replace (old new : ascii) (s : string) : string :=
  match s with
  | EmptyString => EmptyString
  | String c rest =>
      String (if Ascii.eqb c old then new else c) (replace old new rest)
  end.

(** [s.replace(old, EmptyString)] for a one-character [old] *)
Fixpoint remove (old : ascii) (s : string) : string :=
  match s with
  | EmptyString => EmptyString
  | String c rest =>
      if Ascii.eqb c old then remove old rest else String c (remove old rest)
  end.

(** [s.lstrip(chars)] with the set [chars] given as a predicate *)
Fixpoint lstrip (strip : ascii -> bool) (s : string) : string :=
  match s with
  | EmptyString => EmptyString
  | String c rest => if strip c then lstrip strip rest else s
  end.

Fixpoint all (p : ascii -> bool) (s : string) : bool :=
  match s with
  | EmptyString => true
  | String c rest => p c && all p rest
  end.

(** the text of [s] up to the first character satisfying [stop], and
    the rest from that character on *)
Fixpoint break (stop : ascii -> bool) (s : string) : string * string :=
  match s with
  | EmptyString => (EmptyString, EmptyString)
  | String c rest =>
      if stop c then (EmptyString, s)
      else let '(before, after) := break stop rest in (String c before, after)
  end.

Definition code (c : ascii) : nat := nat_of_ascii c.

Definition is_ascii (c : ascii) : bool := Nat.ltb (code c) 128.

Definition is_ascii_alpha (c : ascii) : bool :=
  (Nat.leb 65 (code c) && Nat.leb (code c) 90)
  || (Nat.leb 97 (code c) && Nat.leb (code c) 122).

Definition is_digit (c : ascii) : bool :=
  Nat.leb 48 (code c) && Nat.leb (code c) 57.

End Str.

(** ** [urllib.parse]: the path from a URL to its decoded fragment

    [parse_url] calls [urlparse(url).fragment] and [parse_qs]. Both are
    library functions; they are transcribed here from CPython 3.12
    ([Lib/urllib/parse.py]) as far as the fragment and the default
    arguments of [parse_qs] ([keep_blank_values=False],
    [strict_parsing=False], [separator='&']) are concerned. Three library
    routines are taken as parameters: the validation of a bracketed host,
    the NFKC check of a non-ASCII host, and the percent-decoding that
    [unquote] performs on a string containing [%]. *)

Section Urllib.

Variable check_bracketed_netloc : string -> bool.
Variable check_nfkc_netloc : string -> bool.
Variable unquote_escaped : string -> string.

(** [_WHATWG_C0_CONTROL_OR_SPACE]: the characters up to the space *)
Definition c0_control_or_space (c : ascii) : bool :=
  Nat.leb (Str.code c) 32.

(** [scheme_chars]: letters, digits and [+-.] *)
Definition scheme_char (c : ascii) : bool :=
  Str.is_ascii_alpha c || Str.is_digit c
  || Ascii.eqb c "+" || Ascii.eqb c "-" || Ascii.eqb c ".".

(** the [url] left once a leading scheme is split off *)
Definition drop_scheme (url : string) : string :=
  match url, Str.split_once ":" url with
  | String c0 _, Some (String _ _ as before, after) =>
      if Str.is_ascii c0 && Str.is_ascii_alpha c0 && Str.all scheme_char before
      then after else url
  | _, _ => url
  end.

(** [_splitnetloc(url, 2)] for a [url] that starts with two slashes *)
Definition splitnetloc (after_slashes : string) : string * string :=
  Str.break
    (fun c => Ascii.eqb c "/" || Ascii.eqb c "?" || Ascii.eqb c "#")
    after_slashes.

(** [_checknetloc] *)
Definition checknetloc (netloc : string) : bool :=
  match netloc with
  | EmptyString => true
  | _ => if Str.all Str.is_ascii netloc then true else check_nfkc_netloc netloc
  end.

(** [urlparse(url).fragment], or the [ValueError] of [urlsplit] *)
Definition urlparse_fragment (url : string) : result string :=
  let url := Str.lstrip c0_control_or_space url in
  let url := Str.remove "010" (Str.remove "013" (Str.remove "009" url)) in
  let url := drop_scheme url in
  let '(netloc, url) :=
    match url with
    | String "/" (String "/" rest) => splitnetloc rest
    | _ => (EmptyString, url)
    end in
  let open := Str.contains "[" netloc in
  let close := Str.contains "]" netloc in
  if (open && negb close) || (close && negb open) then Raise ValueError
  else if open && close && negb (check_bracketed_netloc netloc)
  then Raise ValueError
  else
    let fragment :=
      match Str.split_once "#" url with
      | Some (_, fragment) => fragment
      | None => EmptyString
      end in
    if checknetloc netloc then Ok fragment else Raise ValueError.

(** [unquote]: a string without [%] is returned as it is *)
Definition unquote (s : string) : string :=
  if Str.contains "%" s then unquote_escaped s else s.

(** one [name_value] of the loop of [parse_qsl] *)
Definition parse_field (name_value : string) : list (string * string) :=
  match name_value with
  | EmptyString => []
  | _ =>
      match Str.split_once "=" name_value with
      | None => []
      | Some (n, v) =>
          match v with
          | EmptyString => []
          | _ => [(unquote (Str.replace "+" " " n),
                   unquote (Str.replace "+" " " v))]
          end
      end
  end.

Definition parse_qsl (qs : string) : list (string * string) :=
  let query_args :=
    match qs with EmptyString => [] | _ => Str.split "&" qs end in
  flat_map parse_field query_args.

Definition parse_qs_add (parsed_result : gmap string (list string))
    (pair : string * string) : gmap string (list string) :=
  let '(name, value) := pair in
  match parsed_result !! name with
  | Some values => <[name := values ++ [value]]> parsed_result
  | None => <[name := [value]]> parsed_result
  end.

Definition parse_qs (qs : string) : gmap string (list string) :=
  fold_left parse_qs_add (parse_qsl qs) ∅.

(** *** [parse_url] *)

Definition parse_url (url : string) : result (gmap string (list string)) :=
  match urlparse_fragment url with
  | Ok fragment => Ok (parse_qs fragment)
  | Raise e => Raise e
  end.

End Urllib.

(** ** Data: JSON documents and data frames *)

(** A value decoded by [response.json()]. A number keeps its literal: no
    arithmetic is done on the figures the service returns. *)
#[warnings="-register-all"]
Inductive json : Type :=
| JNull
| JBool (b : bool)
| JNumber (literal : string)
| JString (s : string)
| JArray (items : list json)
| JObject (members : list (string * json)).

(** A JSON object as Python holds it, a [dict] in insertion order. Both
    endpoints answer with an array of such objects. *)
Definition record : Type := list (string * json).

(** [d.get(key, default)] *)
Fixpoint dict_get (key : string) (default : json) (d : record) : json :=
  match d with
  | [] => default
  | (k, v) :: rest => if String.eqb k key then v else dict_get key default rest
  end.

Fixpoint dict_find (key : string) (d : record) : option json :=
  match d with
  | [] => None
  | (k, v) :: rest => if String.eqb k key then Some v else dict_find key rest
  end.

(** One cell of a frame: a value, or the [NaN] pandas puts where a row
    has nothing for a column. *)
Inductive cell : Type :=
| NaN
| Value (v : json).

(** A [pandas.DataFrame]: column labels in order and, for every row, one
    cell per label. The row index is not kept: the program renumbers it
    ([ignore_index=True]) and never reads it. *)
Record DataFrame : Type := mkDataFrame {
  columns : list string;
  rows : list (list cell)
}.

Module Pandas.

(** [label in labels] *)
Definition has_label (label : string) (labels : list string) : bool :=
  existsb (String.eqb label) labels.

(** [labels.index(label)] *)
Fixpoint index (label : string) (labels : list string) : option nat :=
  match labels with
  | [] => None
  | l :: rest =>
      if String.eqb l label then Some 0
      else option_map S (index label rest)
  end.

(** labels of [new] not seen yet go to the end, in their order: the
    union pandas takes with [sort=False] *)
Definition add_labels (seen new : list string) : list string :=
  fold_left (fun acc l => if has_label l acc then acc else acc ++ [l]) new seen.

(** the cells of [row], laid out for [from], laid out for [to] *)
Definition realign (from to : list string) (row : list cell) : list cell :=
  map (fun l => match index l from with
                | Some i => nth i row NaN
                | None => NaN
                end) to.

(** [pd.DataFrame(data)] for a list of dicts: the columns are the keys
    in order of first appearance *)
Definition of_records (data : list record) : DataFrame :=
  let labels := fold_left add_labels (map (map fst) data) [] in
  {| columns := labels;
     rows := map (fun r => map (fun l => match dict_find l r with
                                         | Some v => Value v
                                         | None => NaN
                                         end) labels) data |}.

(** [df[label] = v] for a scalar [v]: an existing column is overwritten
    where it stands, a new one is added last *)
Definition setitem (label : string) (v : json) (df : DataFrame) : DataFrame :=
  match index label (columns df) with
  | Some i =>
      {| columns := columns df;
         rows := map (fun row => <[i := Value v]> row) (rows df) |}
  | None =>
      {| columns := columns df ++ [label];
         rows := map (fun row => row ++ [Value v]) (rows df) |}
  end.

(** [pd.concat(frames, ignore_index=True)] *)
Definition concat (frames : list DataFrame) : result DataFrame :=
  match frames with
  | [] => Raise ValueError
  | _ =>
      let labels := fold_left add_labels (map columns frames) [] in
      Ok {| columns := labels;
            rows := flat_map
                      (fun df => map (realign (columns df) labels) (rows df))
                      frames |}
  end.

(** the key of a row of the join: [num_id] holds a string in both
    frames the program joins *)
Definition key_of (c : cell) : option string :=
  match c with
  | Value (JString s) => Some s
  | _ => None
  end.

Definition same_key (a b : cell) : bool :=
  match key_of a, key_of b with
  | Some x, Some y => String.eqb x y
  | _, _ => false
  end.

Definition without (label : string) (labels : list string) : list string :=
  List.filter (fun l => negb (String.eqb l label)) labels.

(** [labels.duplicated()]: marks a label that occurred before *)
Fixpoint duplicated_from (seen labels : list string) : list bool :=
  match labels with
  | [] => []
  | l :: rest => has_label l seen :: duplicated_from (l :: seen) rest
  end.

Definition duplicated (labels : list string) : list bool :=
  duplicated_from [] labels.

(** the renaming made a label a duplicate that was none before *)
Definition new_duplicates (renamed original : list string) : bool :=
  existsb (fun p => fst p && negb (snd p))
          (combine (duplicated renamed) (duplicated original)).

(** [left.merge(right, on=key, how='left')] with the default suffixes
    [_x] and [_y] (pandas 2): every row of [left], in order, once for
    each row of [right] with the same key, in order, or once with [NaN]
    when there is none. A column other than the key that both frames
    have is renamed on both sides; a renaming that makes two labels of
    one side equal is refused. *)
Definition merge_left (key : string) (left right : DataFrame)
    : result DataFrame :=
  match index key (columns left), index key (columns right) with
  | Some kl, Some kr =>
      let right_other := without key (columns right) in
      let overlap l :=
        negb (String.eqb l key)
        && has_label l (columns left) && has_label l right_other in
      let llabels :=
        map (fun l => if overlap l then (l ++ "_x")%string else l) (columns left) in
      let rlabels :=
        map (fun l => if overlap l then (l ++ "_y")%string else l) right_other in
      if new_duplicates llabels (columns left)
         || new_duplicates rlabels right_other
      then Raise MergeError
      else
        let join lrow :=
          match List.filter
                  (fun rrow => same_key (nth kl lrow NaN) (nth kr rrow NaN))
                  (rows right) with
          | [] => [lrow ++ map (fun _ => NaN) right_other]
          | found =>
              map (fun rrow => lrow ++ realign (columns right) right_other rrow)
                  found
          end in
        Ok {| columns := llabels ++ rlabels;
              rows := flat_map join (rows left) |}
  | _, _ => Raise KeyError
  end.

Definition positions (label : string) (labels : list string) : list nat :=
  map fst (List.filter (fun p => String.eqb (snd p) label)
                       (combine (seq 0 (length labels)) labels)).

(** [df[labels]]: for each label asked, every column that bears it *)
Definition getitem (labels : list string) (df : DataFrame) : result DataFrame :=
  if forallb (fun l => has_label l (columns df)) labels then
    let picked := flat_map (fun l => positions l (columns df)) labels in
    Ok {| columns := map (fun i => nth i (columns df) EmptyString) picked;
          rows := map (fun row => map (fun i => nth i row NaN) picked) (rows df) |}
  else Raise KeyError.

End Pandas.

(** ** The column reordering of [extract_data]

    [cols.append(cols.pop(cols.index(col)))]: the first occurrence of
    [col] leaves its place and goes to the end. *)

Fixpoint pop_first (col : string) (cols : list string) : list string :=
  match cols with
  | [] => []
  | c :: rest => if String.eqb c col then rest else c :: pop_first col rest
  end.

Definition move_last (cols : list string) (col : string) : list string :=
  if Pandas.has_label col cols then pop_first col cols ++ [col] else cols.

Definition moved_columns : list string := ["items"; "quantity"; "actual_cost"].

Definition reorder_columns (cols : list string) : list string :=
  fold_left move_last moved_columns cols.

(** ** Events and runs *)

(** An f-string with its arguments still apart: the text of the message
    and the values put into it. *)
Inductive fpart : Type :=
| Lit (text : string)
| FInt (n : Z)
| FStr (s : string)
| FList (l : list string).

Definition fstring : Type := list fpart.

Inductive event : Type :=
| St_write (text : fstring)
| St_error (text : string)
| St_warning (text : string)
| St_empty                              (* [progress_text = st.empty()] *)
| St_progress (value : Z)               (* [st.progress(0)], [progress_bar.progress(n)] *)
| St_text (text : fstring)              (* [progress_text.text(...)] *)
| St_dataframe (df : DataFrame)
| St_download_link (df : DataFrame)     (* [st.markdown(href)], the CSV of [df] in the link *)
| Requests_get (url : string)
| Call_extract_data (org : string) (org_ids num_ids : list string).

Definition trace : Type := list event.

Definition is_request (e : event) : bool :=
  match e with Requests_get _ => true | _ => false end.

Definition is_table_output (e : event) : bool :=
  match e with St_dataframe _ | St_download_link _ => true | _ => false end.

Definition is_error (e : event) : bool :=
  match e with St_error _ => true | _ => false end.

Definition is_call (e : event) : bool :=
  match e with Call_extract_data _ _ _ => true | _ => false end.

Definition is_warning (e : event) : bool :=
  match e with St_warning _ => true | _ => false end.

Definition is_no_data_message (e : event) : bool :=
  match e with
  | St_write [Lit text] => String.eqb text "No data returned from API calls."
  | _ => false
  end.

(** A run: from the trace so far to the trace after it and its outcome.
    An exception ends the run; nothing in the program catches one. *)
Definition M (A : Type) : Type := trace -> trace * result A.

Definition ret {A} (a : A) : M A := fun t => (t, Ok a).

Definition bind {A B} (m : M A) (k : A -> M B) : M B :=
  fun t => match m t with
           | (t', Ok a) => k a t'
           | (t', Raise e) => (t', Raise e)
           end.

Definition emit (e : event) : M unit := fun t => (t ++ [e], Ok tt).

Definition lift {A} (r : result A) : M A := fun t => (t, r).

Declare Scope run_scope.
Delimit Scope run_scope with run.
Notation "x <- m ;; k" := (bind m (fun x => k))
  (at level 100, m at next level, right associativity) : run_scope.
Notation "m ;; k" := (bind m (fun _ => k))
  (at level 100, right associativity) : run_scope.

(** [for x in l: body], the variables the body assigns being [s] *)
Fixpoint for_each {A S} (body : A -> S -> M S) (l : list A) (s : S) : M S :=
  match l with
  | [] => ret s
  | x :: rest => bind (body x s) (for_each body rest)
  end.

(** ** Progress: [int((call_count / total_calls) * 100)]

    The quotient and the product are IEEE 754 binary64 operations; both
    counts are far below [2^53], so their conversion is exact. *)

Module Progress.

Definition prec : Z := 53.
Definition emax : Z := 1024.

Definition float_of_int (n : Z) : spec_float :=
  binary_normalize prec emax n 0 false.

(** [int(x)] for a finite [x]: towards zero *)
Definition int_of_float (x : spec_float) : option Z :=
  match x with
  | S754_zero _ => Some 0%Z
  | S754_finite s m e =>
      let a := if (0 <=? e)%Z then (Z.pos m * 2 ^ e)%Z
               else (Z.pos m / 2 ^ (- e))%Z in
      Some (if s then (- a)%Z else a)
  | S754_infinity _ | S754_nan => None
  end.

Definition percent (call_count total_calls : nat) : result Z :=
  match total_calls with
  | O => Raise ZeroDivisionError
  | _ =>
      let ratio := SFdiv prec emax (float_of_int (Z.of_nat call_count))
                                   (float_of_int (Z.of_nat total_calls)) in
      match int_of_float (SFmul prec emax ratio (float_of_int 100)) with
      | Some n => Ok n
      | None => Raise ValueError
      end
  end.

End Progress.

(** ** The program *)

Section Program.

(** The service: what [requests.get(url).json()] yields after the
    events so far, an array of objects, or [None] when the request or
    the decoding raises. *)
Variable api : trace -> string -> option (list record).

Local Open Scope run_scope.

Definition requests_get_json (url : string) : M (list record) :=
  fun t => (t ++ [Requests_get url],
            match api t url with
            | Some data => Ok data
            | None => Raise RequestFault
            end).

Definition name_url (num_id : string) : string :=
  ("https://openprescribing.net/api/1.0/bnf_code/?exact=true&format=json&q="
     ++ num_id)%string.

Definition spending_url (num_id org_id org : string) : string :=
  ("https://openprescribing.net/api/1.0/spending_by_org/?code=" ++ num_id
     ++ "&format=json&org=" ++ org_id ++ "&org_type=" ++ org)%string.

(** [{'num_id': num_id, 'name': name}] *)
Definition name_record (num_id : string) (name : json) : record :=
  [("num_id", JString num_id); ("name", name)].

Definition fetch_name_for_num_id (num_id : string) : M json :=
  let api_url := name_url num_id in
  data <- requests_get_json api_url ;;
  match data with
  | first :: _ => ret (dict_get "name" (JString EmptyString) first)
  | [] => ret (JString EmptyString)
  end.

(** the three lines that end both loop bodies *)
Definition update_progress (call_count total_calls : nat) : M unit :=
  progress <- lift (Progress.percent call_count total_calls) ;;
  emit (St_progress progress) ;;
  emit (St_text [Lit "Fetching data from API - API call ";
                 FInt (Z.of_nat call_count); Lit "/";
                 FInt (Z.of_nat total_calls); Lit " ("; FInt progress;
                 Lit "%)"]).

(** body of [for num_id in num_ids] (first loop); the state is
    [(call_count, num_id_names)] *)
Definition name_step (total_calls : nat) (num_id : string)
    (s : nat * list record) : M (nat * list record) :=
  let '(call_count, num_id_names) := s in
  let call_count := call_count + 1 in
  name <- fetch_name_for_num_id num_id ;;
  let num_id_names := num_id_names ++ [name_record num_id name] in
  update_progress call_count total_calls ;;
  ret (call_count, num_id_names).

(** body of the inner loop over [num_ids] (second loop); the state is
    [(call_count, dataframes)] *)
Definition spending_step (org : string) (total_calls : nat)
    (org_id num_id : string) (s : nat * list DataFrame)
    : M (nat * list DataFrame) :=
  let '(call_count, dataframes) := s in
  let call_count := call_count + 1 in
  let api_url := spending_url num_id org_id org in
  data <- requests_get_json api_url ;;
  let df := Pandas.of_records data in
  let df := Pandas.setitem "num_id" (JString num_id) df in
  let dataframes := dataframes ++ [df] in
  update_progress call_count total_calls ;;
  ret (call_count, dataframes).

(** the branch [if dataframes:] *)
Definition show_results (dataframes : list DataFrame) (num_id_df : DataFrame)
    : M unit :=
  match dataframes with
  | _ :: _ =>
      final_df <- lift (Pandas.concat dataframes) ;;
      final_df <- lift (Pandas.merge_left "num_id" final_df num_id_df) ;;
      let cols := reorder_columns (columns final_df) in
      final_df <- lift (Pandas.getitem cols final_df) ;;
      emit (St_dataframe final_df) ;;
      emit (St_download_link final_df)
  | [] =>
      emit (St_write [Lit "No data returned from API calls."])
  end.

Definition extract_data (org : string) (org_ids num_ids : list string)
    : M unit :=
  let api_calls := calculate_api_calls org_ids num_ids in
  if Nat.ltb API_CALL_LIMIT api_calls then
    emit (St_write [Lit "Search too complex - this would require too many API calls. (";
                    FInt (Z.of_nat api_calls); Lit " needed)."]) ;;
    emit (St_write [Lit "Reduce number of organisations or number of medication codes."])
  else
    emit (St_write [Lit "Select organisation type: "; FStr org]) ;;
    emit (St_write [Lit "Selected organisations: "; FList org_ids]) ;;
    emit (St_write [Lit "Selected products: "; FList num_ids]) ;;
    emit (St_write [Lit "Number of API calls needed: ";
                    FInt (Z.of_nat api_calls)]) ;;
    let total_calls := length num_ids + length org_ids * length num_ids in
    emit St_empty ;;
    emit (St_progress 0) ;;
    s <- for_each (name_step total_calls) num_ids (0, []) ;;
    let '(call_count, num_id_names) := s in
    let num_id_df := Pandas.of_records num_id_names in
    s <- for_each
           (fun org_id => for_each (spending_step org total_calls org_id) num_ids)
           org_ids (call_count, []) ;;
    let '(call_count, dataframes) := s in
    emit (St_write [Lit "---"]) ;;
    emit (St_write [Lit "### Results:"]) ;;
    show_results dataframes num_id_df.

(** *** The button handler *)

Variable check_bracketed_netloc : string -> bool.
Variable check_nfkc_netloc : string -> bool.
Variable unquote_escaped : string -> string.

(** [query_components.get('org', [''])[0]] *)
Definition get_org (query_components : gmap string (list string))
    : result string :=
  match query_components !! "org" with
  | Some (v :: _) => Ok v
  | Some [] => Raise IndexError
  | None => Ok EmptyString
  end.

(** [query_components.get(key, [])[0].split(',') if key in
    query_components else []] *)
Definition get_ids (key : string)
    (query_components : gmap string (list string)) : result (list string) :=
  match query_components !! key with
  | Some (v :: _) => Ok (Str.split "," v)
  | Some [] => Raise IndexError
  | None => Ok []
  end.

Definition has_key (key : string)
    (query_components : gmap string (list string)) : bool :=
  match query_components !! key with Some _ => true | None => false end.

(** what follows [query_components = parse_url(url)] *)
Definition handle_query (query_components : gmap string (list string))
    : M unit :=
  org <- lift (get_org query_components) ;;
  org_ids <- lift (get_ids "orgIds" query_components) ;;
  num_ids <- lift (get_ids "numIds" query_components) ;;
  let error_raised := false in
  error_raised <-
    (if has_key "denomIds" query_components then
       emit (St_error "Denominators not currently supported. Please remove the denominators and try again.") ;;
       ret true
     else ret error_raised) ;;
  error_raised <-
    (match org_ids with
     | [] =>
         emit (St_error "Queries without organisation(s) are not currently supported. Please select an organisation and try again.") ;;
         ret true
     | _ =>
         (if check_for_mixed_code_types num_ids then
            emit (St_warning "There may be a mixture of types of codes used in your query (e.g. VMP, VTM), this may give unexpected results e.g. double counting if there is overlap. Please check your query carefully.")
          else ret tt) ;;
         ret error_raised
     end) ;;
  if negb error_raised then
    emit (Call_extract_data org org_ids num_ids) ;;
    extract_data org org_ids num_ids
  else ret tt.

(** [if st.button(...)] taken, with [url] the text of the input box *)
Definition on_button (url : string) : M unit :=
  match url with
  | EmptyString => ret tt
  | _ =>
      query_components <-
        lift (parse_url check_bracketed_netloc check_nfkc_netloc
                        unquote_escaped url) ;;
      handle_query query_components
  end.

End Program.

(** ** Vocabulary of the properties *)

Definition is_vmp_length (code : string) : bool :=
  Nat.eqb (String.length code) 15.

Definition is_shorter_length (code : string) : bool :=
  Nat.ltb (String.length code) 15.

Definition is_moved (col : string) : bool :=
  Pandas.has_label col moved_columns.

(** The product a row of a frame is tagged with: its cell in the
    column [num_id]. *)
Definition row_num_id (df : DataFrame) (row : list cell) : option string :=
  match Pandas.index "num_id" (columns df) with
  | Some i => Pandas.key_of (nth i row NaN)
  | None => None
  end.

Definition is_progress (e : event) : bool :=
  match e with St_progress _ | St_text _ => true | _ => false end.

(** What the two loops emit for [n] calls: [n] requests, and progress
    reports. *)
Definition calls_events (n : nat) (es : list event) : Prop :=
  length (List.filter is_request es) = n
  /\ forallb (fun e => is_request e || is_progress e) es = true.

(** The service answers every request: no call raises. *)
Definition answers (api : trace -> string -> option (list record)) : Prop :=
  forall t url, exists data, api t url = Some data.

Definition percent_defined (call_count total_calls : nat) : bool :=
  match Progress.percent call_count total_calls with
  | Ok n => (0 <=? n)%Z && (n <=? 100)%Z
  | Raise _ => false
  end.

(** A service that answers every request with the empty array. *)
Definition silent_api : trace -> string -> option (list record) :=
  fun _ _ => Some [].

(** Stand-ins for the three routines of [urllib.parse] taken as
    parameters, for runs on concrete URLs. *)
Definition accept_netloc : string -> bool := fun _ => true.
Definition leave_escapes : string -> string := fun s => s.

(** every key that [parse_qs] records has at least one value *)
Definition values_not_nil (d : gmap string (list string)) : Prop :=
  forall k vs, d !! k = Some vs -> vs <> [].

(** The reordering keeps the columns it moves in the order they had in
    the table. *)
Definition keeps_order_of_moved (cols : list string) : Prop :=
  List.filter is_moved (reorder_columns cols) = List.filter is_moved cols.

(** The requests a complete run makes, in the order of the two loops:
    one lookup per product, then one spending request per organisation
    and, within it, per product. *)
Definition planned_requests (org : string) (org_ids num_ids : list string)
    : list event :=
  map (fun num_id => Requests_get (name_url num_id)) num_ids
  ++ flat_map
       (fun org_id =>
          map (fun num_id => Requests_get (spending_url num_id org_id org))
              num_ids)
       org_ids.

(** A piece of the run that starts in a state [(call_count, x)] that
    satisfies [inv] and has room for [n] more calls: it emits requests and
    progress reports only, and either makes the requests [reqs], counts
    them and ends in a state that satisfies [inv], or stops on a request
    that raises, having made the first of them; [faulty] then holds. *)
Definition issues {X} (inv : nat * X -> Prop) (faulty : Prop)
    (total_calls : nat) (m : nat * X -> M (nat * X)) (n : nat)
    (reqs : list event) : Prop :=
  forall call_count x t,
    inv (call_count, x) ->
    call_count + n <= total_calls ->
    exists es r,
      m (call_count, x) t = (t ++ es, r)
      /\ forallb (fun e => is_request e || is_progress e) es = true
      /\ ((exists x', r = Ok (call_count + n, x')
                      /\ inv (call_count + n, x')
                      /\ List.filter is_request es = reqs)
          \/ (r = Raise RequestFault
              /\ faulty
              /\ List.filter is_request es `prefix_of` reqs
              /\ exists url, last es = Some (Requests_get url))).

(** The state of the first loop: one record per call made, each built
    by [name_record]. *)
Definition names_so_far (s : nat * list record) : Prop :=
  length (snd s) = fst s
  /\ exists l, snd s = map (fun p => name_record (fst p) (snd p)) l.

(** The state of the second loop, which follows [lookups] calls of the
    first: one frame per call made since, each with a column [num_id] and
    with the property [good]. *)
Definition frames_so_far (good : DataFrame -> Prop) (lookups : nat)
    (s : nat * list DataFrame) : Prop :=
  length (snd s) + lookups = fst s
  /\ Forall (fun df => Pandas.has_label "num_id" (columns df) = true
                       /\ good df) (snd s).

(** The percentage for [call_count] of [total_calls] calls is the exact
    quotient rounded down or one below it, is 100 at the last call, and
    is not below the percentage of the call before. *)
Definition percent_checked (call_count total_calls : nat) : bool :=
  match Progress.percent call_count total_calls,
        Progress.percent (call_count - 1) total_calls with
  | Ok n, Ok before =>
      let exact := (100 * Z.of_nat call_count / Z.of_nat total_calls)%Z in
      (exact - 1 <=? n)%Z && (n <=? exact)%Z
      && (if Nat.eqb call_count total_calls then (n =? 100)%Z else true)
      && (before <=? n)%Z
  | _, _ => false
  end.

(** The text of the warning of the button handler. *)
Definition mixed_codes_warning : string :=
  "There may be a mixture of types of codes used in your query (e.g. VMP, VTM), this may give unexpected results e.g. double counting if there is overlap. Please check your query carefully.".

(** The values that the pairs of a query string give to [name], in
    order. *)
Definition values_of (name : string) (pairs : list (string * string))
    : list string :=
  map snd (List.filter (fun p => String.eqb (fst p) name) pairs).

(** The cell of [row] under the column [label] of [df]; [NaN] when the
    frame has no such column. *)
Definition cell_at (df : DataFrame) (row : list cell) (label : string) : cell :=
  match Pandas.index label (columns df) with
  | Some i => nth i row NaN
  | None => NaN
  end.

(** The rows that the join with the names makes of one row of the
    left frame, whose product is in cell [i]: the row with the name of
    each record of that product, or with [NaN] when there is none. *)
Definition joined_rows (names : list (string * json)) (i : nat)
    (lrow : list cell) : list (list cell) :=
  match List.filter (fun p => Pandas.same_key (nth i lrow NaN)
                                              (Value (JString (fst p)))) names with
  | [] => [lrow ++ [NaN]]
  | found => map (fun p => lrow ++ [Value (snd p)]) found
  end.

(** The text of [url] after its first [#]; empty when it has none. *)
Definition after_hash (url : string) : string :=
  match Str.split_once "#" url with
  | Some (_, fragment) => fragment
  | None => EmptyString
  end.

(** [s] without its tabs, carriage returns and line feeds. *)
Definition without_breaks (s : string) : string :=
  Str.remove "010" (Str.remove "013" (Str.remove "009" s)).

(** * Properties *)

(** ** The call budget *)

(** C1. For lists of [O] organisations and [P] products the budget is
    exactly [P + O * P]; it is [0] when both lists are empty. *)
Theorem calculate_api_calls_formula :
  (forall org_ids num_ids : list string,
      calculate_api_calls org_ids num_ids
      = length num_ids + length org_ids * length num_ids)
  /\ calculate_api_calls [] [] = 0.
Proof. split; [intros org_ids num_ids | ]; reflexivity. Qed.

Lemma calculate_api_calls_product (org_ids num_ids : list string) :
  calculate_api_calls org_ids num_ids = length num_ids * S (length org_ids).
Proof. unfold calculate_api_calls. lia. Qed.

Lemma calculate_api_calls_no_product (org_ids : list string) :
  calculate_api_calls org_ids [] = 0.
Proof. unfold calculate_api_calls. simpl. lia. Qed.

(** ** The code-type heuristic *)

Lemma scan_flags (codes : list string) (has_vmp has_shorter_code : bool) :
  fold_left MixedCodes.step codes (has_vmp, has_shorter_code)
  = (has_vmp || existsb is_vmp_length codes,
     has_shorter_code || existsb is_shorter_length codes).
Proof.
  revert has_vmp has_shorter_code.
  induction codes as [ | code codes IH]; intros has_vmp has_shorter_code.
  - simpl. now rewrite !orb_false_r.
  - cbn [fold_left existsb]. unfold MixedCodes.step at 2.
    unfold is_vmp_length at 1, is_shorter_length at 1.
    destruct (Nat.eqb_spec (String.length code) 15) as [E | NE].
    + rewrite IH. replace (String.length code <? 15)%nat with false
        by (symmetry; apply Nat.ltb_ge; lia).
      now rewrite orb_true_r, orb_false_l.
    + destruct (String.length code <? 15)%nat; rewrite IH;
        now rewrite ?orb_true_r, ?orb_false_l, ?orb_true_l.
Qed.

Lemma check_for_mixed_code_types_existsb (codes : list string) :
  check_for_mixed_code_types codes
  = existsb is_vmp_length codes && existsb is_shorter_length codes.
Proof.
  unfold check_for_mixed_code_types, MixedCodes.scan.
  rewrite scan_flags. simpl.
  now destruct (existsb is_vmp_length codes), (existsb is_shorter_length codes).
Qed.

(** C8. The checker answers [true] exactly when the codes hold a string
    of length 15 and a string of length below 15; with one family only,
    or no code, it answers [false]. *)
Theorem check_for_mixed_code_types_iff (codes : list string) :
  (check_for_mixed_code_types codes = true
   <-> (exists c, In c codes /\ String.length c = 15)
       /\ (exists c, In c codes /\ String.length c < 15))
  /\ (check_for_mixed_code_types codes = false
      <-> (forall c, In c codes -> String.length c <> 15)
          \/ (forall c, In c codes -> ~ String.length c < 15))
  /\ check_for_mixed_code_types [] = false.
Proof.
  assert (Hvmp : forall l, existsb is_vmp_length l = true
                           <-> exists c, In c l /\ String.length c = 15).
  { intros l. rewrite existsb_exists. unfold is_vmp_length.
    split; intros (c & Hin & Hc); exists c; split; auto;
      now apply Nat.eqb_eq. }
  assert (Hshort : forall l, existsb is_shorter_length l = true
                             <-> exists c, In c l /\ String.length c < 15).
  { intros l. rewrite existsb_exists. unfold is_shorter_length.
    split; intros (c & Hin & Hc); exists c; split; auto;
      now apply Nat.ltb_lt. }
  rewrite check_for_mixed_code_types_existsb.
  split; [ | split; [ | reflexivity]].
  - rewrite andb_true_iff, Hvmp, Hshort. reflexivity.
  - rewrite andb_false_iff. split.
    + intros [H | H]; [left | right]; intros c Hin Hc;
        (assert (Hex : exists c, In c codes /\ _) by (exists c; split; eauto));
        [apply Hvmp in Hex | apply Hshort in Hex]; congruence.
    + intros [H | H]; [left | right]; apply not_true_is_false; intros Hex;
        [apply Hvmp in Hex | apply Hshort in Hex];
        destruct Hex as (c & Hin & Hc); apply (H c); auto.
Qed.

(** A code of more than 15 characters changes neither flag. *)
Lemma step_longer_code (flags : bool * bool) (code : string) :
  15 < String.length code -> MixedCodes.step flags code = flags.
Proof.
  intros Hlen. destruct flags as [has_vmp has_shorter_code]. simpl.
  replace (String.length code =? 15)%nat with false
    by (symmetry; apply Nat.eqb_neq; lia).
  replace (String.length code <? 15)%nat with false
    by (symmetry; apply Nat.ltb_ge; lia).
  reflexivity.
Qed.

(** C9. Codes of more than 15 characters belong to neither family: a
    sequence without a code of length 15, or without a code of length
    below 15, never makes the checker answer [true], whatever longer
    codes it holds. *)
Theorem check_for_mixed_code_types_one_family (codes : list string) :
  Forall (fun c => String.length c <> 15) codes
  \/ Forall (fun c => ~ String.length c < 15) codes ->
  check_for_mixed_code_types codes = false.
Proof.
  intros H. rewrite check_for_mixed_code_types_existsb.
  apply andb_false_iff.
  destruct H as [H | H]; [left | right]; apply not_true_is_false;
    rewrite existsb_exists; intros (c & Hin & Hc);
    rewrite Forall_forall in H; apply (H c).
  - now apply list_elem_of_In.
  - now apply Nat.eqb_eq.
  - now apply list_elem_of_In.
  - now apply Nat.ltb_lt.
Qed.

Lemma check_for_mixed_code_types_one_family_witness :
  check_for_mixed_code_types ["0407010H0AAAMAMX"; "0407010H0AAAMAM"] = false
  /\ check_for_mixed_code_types ["0407010H0AAAMAMX"; "0407010H0A"] = false.
Proof.
  split.
  - apply (check_for_mixed_code_types_one_family
             ["0407010H0AAAMAMX"; "0407010H0AAAMAM"]).
    right. repeat constructor; simpl; lia.
  - apply (check_for_mixed_code_types_one_family
             ["0407010H0AAAMAMX"; "0407010H0A"]).
    left. repeat constructor; simpl; lia.
Defined.

(** ** The column reordering *)

Lemma has_label_In (label : string) (labels : list string) :
  Pandas.has_label label labels = true <-> In label labels.
Proof.
  unfold Pandas.has_label. rewrite existsb_exists. split.
  - intros (l & Hin & Heq). apply String.eqb_eq in Heq. now subst.
  - intros Hin. exists label. split; [assumption | apply String.eqb_refl].
Qed.

Lemma has_label_false (label : string) (labels : list string) :
  Pandas.has_label label labels = false <-> ~ In label labels.
Proof.
  rewrite <- has_label_In. now destruct (Pandas.has_label label labels).
Qed.

Lemma filter_all {A} (p : A -> bool) (l : list A) :
  (forall x, In x l -> p x = true) -> List.filter p l = l.
Proof.
  induction l as [ | a l IH]; intros Hall; [reflexivity | ].
  simpl. rewrite (Hall a) by now left.
  f_equal. apply IH. intros x Hx. apply Hall. now right.
Qed.

Lemma NoDup_list_filter {A} (p : A -> bool) (l : list A) :
  NoDup l -> NoDup (List.filter p l).
Proof.
  induction 1 as [ | a l Hnotin Hnodup IH]; [constructor | ].
  simpl. destruct (p a); [ | assumption].
  constructor; [ | assumption].
  rewrite list_elem_of_In, filter_In, <- list_elem_of_In. tauto.
Qed.

Lemma pop_first_filter (col : string) (cols : list string) :
  NoDup cols ->
  pop_first col cols = List.filter (fun c => negb (String.eqb c col)) cols.
Proof.
  induction 1 as [ | c cols Hnotin Hnodup IH]; [reflexivity | ].
  simpl. destruct (String.eqb_spec c col) as [-> | Hne]; simpl.
  - symmetry. apply filter_all. intros x Hx%list_elem_of_In.
    destruct (String.eqb_spec x col) as [-> | ]; [contradiction | reflexivity].
  - now rewrite IH.
Qed.

Lemma move_last_filter (cols : list string) (col : string) :
  NoDup cols ->
  move_last cols col
  = List.filter (fun c => negb (String.eqb c col)) cols
    ++ (if Pandas.has_label col cols then [col] else []).
Proof.
  intros Hnodup. unfold move_last.
  destruct (Pandas.has_label col cols) eqn:Hin.
  - now rewrite pop_first_filter.
  - rewrite app_nil_r. symmetry. apply filter_all. intros x Hx.
    destruct (String.eqb_spec x col) as [-> | ]; [ | reflexivity].
    apply has_label_false in Hin. contradiction.
Qed.

Lemma move_last_In (cols : list string) (col x : string) :
  NoDup cols -> In x (move_last cols col) <-> In x cols.
Proof.
  intros Hnodup. rewrite move_last_filter by assumption.
  rewrite in_app_iff, filter_In.
  destruct (Pandas.has_label col cols) eqn:Hin.
  - apply has_label_In in Hin. simpl. split.
    + intros [[Hx _] | [<- | []]]; assumption.
    + intros Hx. destruct (String.eqb_spec x col) as [-> | Hne]; auto.
  - apply has_label_false in Hin. simpl. split.
    + intros [[Hx _] | []]; assumption.
    + intros Hx. left. split; [assumption | ].
      destruct (String.eqb_spec x col) as [-> | Hne]; [contradiction | reflexivity].
Qed.

Lemma move_last_NoDup (cols : list string) (col : string) :
  NoDup cols -> NoDup (move_last cols col).
Proof.
  intros Hnodup. rewrite move_last_filter by assumption.
  assert (Hf : NoDup (List.filter (fun c => negb (String.eqb c col)) cols))
    by now apply NoDup_list_filter.
  destruct (Pandas.has_label col cols); [ | now rewrite app_nil_r].
  apply (proj2 (NoDup_app _ _)). split; [apply Hf | ]. split.
  - intros x Hx [<- | []]%list_elem_of_In.
    apply list_elem_of_In, filter_In in Hx. destruct Hx as [_ Hx].
    now rewrite String.eqb_refl in Hx.
  - repeat constructor. intros H%list_elem_of_In. destruct H.
Qed.

Lemma has_label_move_last (cols : list string) (col x : string) :
  NoDup cols ->
  Pandas.has_label x (move_last cols col) = Pandas.has_label x cols.
Proof.
  intros Hnodup. apply eq_true_iff_eq.
  rewrite !has_label_In. now apply move_last_In.
Qed.

Lemma filter_twice {A} (p q : A -> bool) (l : list A) :
  List.filter p (List.filter q l) = List.filter (fun x => q x && p x) l.
Proof.
  induction l as [ | a l IH]; [reflexivity | ].
  simpl. destruct (q a); simpl; [destruct (p a) | ]; now rewrite IH.
Qed.

(** Folding [move_last] over any duplicate-free list [moved] of labels. *)
Lemma fold_move_last (moved cols : list string) :
  NoDup moved -> NoDup cols ->
  fold_left move_last moved cols
  = List.filter (fun c => negb (Pandas.has_label c moved)) cols
    ++ List.filter (fun m => Pandas.has_label m cols) moved.
Proof.
  intros Hmoved. revert cols.
  induction Hmoved as [ | m moved Hnotin Hmoved IH]; intros cols Hcols.
  - simpl. rewrite app_nil_r. symmetry. now apply filter_all.
  - cbn [fold_left]. rewrite IH by now apply move_last_NoDup.
    rewrite (List.filter_ext _ _ (fun x => has_label_move_last cols m x Hcols)).
    rewrite move_last_filter by assumption.
    rewrite List.filter_app, <- app_assoc, filter_twice. f_equal.
    + apply List.filter_ext. intros c. unfold Pandas.has_label. simpl.
      now rewrite negb_orb.
    + cbn [List.filter]. destruct (Pandas.has_label m cols); [ | reflexivity].
      cbn [List.filter app].
      rewrite list_elem_of_In in Hnotin.
      apply has_label_false in Hnotin. now rewrite Hnotin.
Qed.

Lemma moved_columns_NoDup : NoDup moved_columns.
Proof.
  apply (bool_decide_unpack _). vm_compute. reflexivity.
Qed.

(** C4, as the code has it. In a table with distinct column labels the
    reordering keeps the columns other than [items], [quantity] and
    [actual_cost] in their relative order and puts those of the three that
    the table has after them, in the fixed order [items], [quantity],
    [actual_cost]. *)
Theorem reorder_columns_spec (cols : list string) :
  NoDup cols ->
  reorder_columns cols
  = List.filter (fun c => negb (is_moved c)) cols
    ++ List.filter (fun m => Pandas.has_label m cols) moved_columns.
Proof.
  intros Hcols. unfold reorder_columns.
  now rewrite fold_move_last by (assumption || apply moved_columns_NoDup).
Qed.

Lemma reorder_columns_spec_witness :
  NoDup ["org"; "num_id"; "items"; "name"; "quantity"; "actual_cost"]
  /\ reorder_columns ["org"; "num_id"; "items"; "name"; "quantity"; "actual_cost"]
     = ["org"; "num_id"; "name"; "items"; "quantity"; "actual_cost"].
Proof.
  assert (H : NoDup
                ["org"; "num_id"; "items"; "name"; "quantity"; "actual_cost"]).
  { apply (bool_decide_unpack _). vm_compute. reflexivity. }
  split; [exact H | ].
  exact (reorder_columns_spec
           ["org"; "num_id"; "items"; "name"; "quantity"; "actual_cost"] H).
Defined.

(** C4, as stated. A table whose [actual_cost] column stands before its
    [items] column comes out with the two exchanged. *)
Lemma reorder_columns_changes_order_of_moved :
  NoDup ["actual_cost"; "items"]
  /\ reorder_columns ["actual_cost"; "items"] = ["items"; "actual_cost"]
  /\ ~ keeps_order_of_moved ["actual_cost"; "items"].
Proof.
  split; [ | split].
  - apply (bool_decide_unpack _). vm_compute. reflexivity.
  - reflexivity.
  - unfold keeps_order_of_moved. vm_compute. discriminate.
Qed.

(** ** Runs of [extract_data] *)

Section Runs.

Variable api : trace -> string -> option (list record).

Lemma bind_emit {B} (e : event) (k : unit -> M B) (t : trace) :
  bind (emit e) k t = k tt (t ++ [e]).
Proof. reflexivity. Qed.

Lemma emit_run (e : event) (t : trace) : emit e t = (t ++ [e], Ok tt).
Proof. reflexivity. Qed.

(** an outer loop whose inner loop has nothing to go through *)
Lemma for_each_skip {A S} (l : list A) (s : S) (t : trace) :
  for_each (fun _ s => ret s) l s t = (t, Ok s).
Proof.
  revert s t. induction l as [ | a l IH]; intros s t; [reflexivity | ].
  cbn [for_each]. unfold bind, ret. apply IH.
Qed.

(** C2. A request whose budget exceeds the ceiling of 100 calls makes
    [extract_data] write its two messages and return: no request is
    issued, neither for a name nor for spending. *)
Theorem extract_data_over_budget (org : string)
    (org_ids num_ids : list string) (t : trace) :
  API_CALL_LIMIT < length num_ids + length org_ids * length num_ids ->
  exists es,
    extract_data api org org_ids num_ids t = (t ++ es, Ok tt)
    /\ es = [St_write [Lit "Search too complex - this would require too many API calls. (";
                       FInt (Z.of_nat (calculate_api_calls org_ids num_ids));
                       Lit " needed)."];
             St_write [Lit "Reduce number of organisations or number of medication codes."]]
    /\ forallb (fun e => negb (is_request e)) es = true.
Proof.
  intros Hover. eexists. split; [ | split; [reflexivity | reflexivity]].
  unfold extract_data.
  replace (API_CALL_LIMIT <? calculate_api_calls org_ids num_ids)%nat with true
    by (symmetry; apply Nat.ltb_lt; exact Hover).
  rewrite bind_emit, emit_run, <- app_assoc. reflexivity.
Qed.

(** C10. With no product selected the budget is [0] and passes the
    gate; [extract_data] issues no request, shows no table, offers no
    export, and ends on the message of the branch without data. This
    holds for every list of organisations, the non-empty ones
    included. *)
Theorem extract_data_no_product (org : string) (org_ids : list string)
    (t : trace) :
  calculate_api_calls org_ids [] = 0
  /\ Nat.ltb API_CALL_LIMIT (calculate_api_calls org_ids []) = false
  /\ exists es,
       extract_data api org org_ids [] t = (t ++ es, Ok tt)
       /\ es = [St_write [Lit "Select organisation type: "; FStr org];
                St_write [Lit "Selected organisations: "; FList org_ids];
                St_write [Lit "Selected products: "; FList []];
                St_write [Lit "Number of API calls needed: "; FInt 0];
                St_empty;
                St_progress 0;
                St_write [Lit "---"];
                St_write [Lit "### Results:"];
                St_write [Lit "No data returned from API calls."]]
       /\ forallb (fun e => negb (is_request e)) es = true
       /\ forallb (fun e => negb (is_table_output e)) es = true.
Proof.
  split; [apply calculate_api_calls_no_product | ].
  split; [now rewrite calculate_api_calls_no_product | ].
  eexists. split; [ | split; [reflexivity | split; reflexivity]].
  unfold extract_data. rewrite calculate_api_calls_no_product.
  cbn [Nat.ltb Nat.leb API_CALL_LIMIT].
  rewrite !bind_emit. cbn [for_each]. unfold bind at 1, ret at 1.
  unfold bind at 1. rewrite for_each_skip.
  rewrite !bind_emit. unfold show_results. rewrite emit_run.
  rewrite <- !app_assoc. reflexivity.
Qed.

End Runs.

Lemma extract_data_over_budget_witness :
  exists es,
    extract_data silent_api "ccg" (repeat "99P" 50) ["0407010H0"; "0212000AA"] []
    = ([] ++ es, Ok tt)
    /\ es = [St_write [Lit "Search too complex - this would require too many API calls. (";
                       FInt (Z.of_nat (calculate_api_calls (repeat "99P" 50)
                                         ["0407010H0"; "0212000AA"]));
                       Lit " needed)."];
             St_write [Lit "Reduce number of organisations or number of medication codes."]]
    /\ forallb (fun e => negb (is_request e)) es = true.
Proof.
  apply (extract_data_over_budget silent_api "ccg" (repeat "99P" 50)
           ["0407010H0"; "0212000AA"] []).
  vm_compute. lia.
Defined.

(** C3, on the code. One organisation, one product, and a service that
    answers both requests with the empty array: no spending record is
    returned, yet the run shows a table without rows, offers its export,
    and never writes the message of the branch without data. *)
Theorem extract_data_empty_answers :
  let run := extract_data silent_api "ccg" ["03Q"] ["0407010H0"] [] in
  snd run = Ok tt
  /\ existsb is_no_data_message (fst run) = false
  /\ existsb is_table_output (fst run) = true
  /\ last (fst run)
     = Some (St_download_link {| columns := ["num_id"; "name"]; rows := [] |})
  /\ List.filter is_request (fst run)
     = [Requests_get (name_url "0407010H0");
        Requests_get (spending_url "0407010H0" "03Q" "ccg")].
Proof. vm_compute. repeat split; reflexivity. Qed.

(** ** Decoding the URL *)

Lemma split_not_nil (sep : ascii) (s : string) : Str.split sep s <> [].
Proof.
  destruct s as [ | c s]; simpl; [discriminate | ].
  destruct (Ascii.eqb c sep); [discriminate | ].
  destruct (Str.split sep s); discriminate.
Qed.

Lemma parse_qs_add_values (d : gmap string (list string))
    (pair : string * string) :
  values_not_nil d -> values_not_nil (parse_qs_add d pair).
Proof.
  intros Hd k vs. destruct pair as [name value]. unfold parse_qs_add.
  destruct (d !! name) as [values | ] eqn:Hname;
    rewrite lookup_insert; case_decide; try apply Hd;
    intros [= <-]; [destruct values | ]; discriminate.
Qed.

Lemma get_org_ok (qc : gmap string (list string)) :
  values_not_nil qc -> exists org, get_org qc = Ok org.
Proof.
  intros Hqc. unfold get_org.
  destruct (qc !! "org") as [[ | v vs] | ] eqn:Hk; eauto.
  now apply Hqc in Hk.
Qed.

Lemma get_ids_ok (key : string) (qc : gmap string (list string)) :
  values_not_nil qc ->
  exists ids, get_ids key qc = Ok ids /\ (ids = [] <-> has_key key qc = false).
Proof.
  intros Hqc. unfold get_ids, has_key.
  destruct (qc !! key) as [[ | v vs] | ] eqn:Hk.
  - now apply Hqc in Hk.
  - eexists. split; [reflexivity | ]. split; [ | discriminate].
    intros Hsplit. now apply split_not_nil in Hsplit.
  - eexists. split; [reflexivity | ]. tauto.
Qed.

Section Decoding.

Variable check_bracketed_netloc : string -> bool.
Variable check_nfkc_netloc : string -> bool.
Variable unquote_escaped : string -> string.

Local Abbreviation parse := (parse_url check_bracketed_netloc check_nfkc_netloc
                             unquote_escaped).

(** C6. The fragment [#org=ccg&orgIds=A,B&numIds=X] decodes to the
    organisation type [ccg], the organisations [A] and [B], and the
    product [X]. *)
Theorem parse_url_example :
  exists query_components,
    parse "#org=ccg&orgIds=A,B&numIds=X" = Ok query_components
    /\ query_components
       = <["numIds" := ["X"]]> (<["orgIds" := ["A,B"]]> (<["org" := ["ccg"]]> ∅))
    /\ get_org query_components = Ok "ccg"
    /\ get_ids "orgIds" query_components = Ok ["A"; "B"]
    /\ get_ids "numIds" query_components = Ok ["X"].
Proof.
  eexists. split; [reflexivity | ].
  split; [ | split; [ | split]]; vm_compute; reflexivity.
Qed.

Lemma parse_qs_values (qs : string) :
  values_not_nil (parse_qs unquote_escaped qs).
Proof.
  unfold parse_qs.
  assert (H : forall pairs d, values_not_nil d ->
                              values_not_nil (fold_left parse_qs_add pairs d)).
  { induction pairs as [ | p pairs IH]; intros d Hd; [exact Hd | ].
    simpl. apply IH. now apply parse_qs_add_values. }
  apply H. intros k vs. rewrite lookup_empty. discriminate.
Qed.

Lemma parse_url_values (url : string) (qc : gmap string (list string)) :
  parse url = Ok qc -> values_not_nil qc.
Proof.
  unfold parse_url. destruct (urlparse_fragment _ _ url); [ | discriminate].
  intros [= <-]. apply parse_qs_values.
Qed.

End Decoding.

(** ** The button handler *)

Section Handler.

Variable api : trace -> string -> option (list record).
Variable check_bracketed_netloc : string -> bool.
Variable check_nfkc_netloc : string -> bool.
Variable unquote_escaped : string -> string.

Lemma bind_lift_ok {A B} (a : A) (k : A -> M B) (t : trace) :
  bind (lift (Ok a)) k t = k a t.
Proof. reflexivity. Qed.

(** C5. A URL that decodes to query components with the key [denomIds],
    or without organisations, gets an error message and nothing else
    but, at most, messages of the same kind and the warning:
    [extract_data] is not called, whatever the products are. *)
Theorem on_button_unsupported (url : string)
    (query_components : gmap string (list string)) (t : trace) :
  url <> EmptyString ->
  parse_url check_bracketed_netloc check_nfkc_netloc unquote_escaped url
  = Ok query_components ->
  has_key "denomIds" query_components = true
  \/ get_ids "orgIds" query_components = Ok [] ->
  exists es,
    on_button api check_bracketed_netloc check_nfkc_netloc unquote_escaped
              url t = (t ++ es, Ok tt)
    /\ existsb is_error es = true
    /\ existsb is_call es = false
    /\ forallb (fun e => is_error e || is_warning e) es = true.
Proof.
  intros Hurl Hparse Hbad.
  pose proof (parse_url_values _ _ _ _ _ Hparse) as Hvalues.
  destruct (get_org_ok _ Hvalues) as [org Horg].
  destruct (get_ids_ok "orgIds" _ Hvalues) as (org_ids & Horg_ids & _).
  destruct (get_ids_ok "numIds" _ Hvalues) as (num_ids & Hnum_ids & _).
  unfold on_button. destruct url as [ | c url]; [congruence | ].
  rewrite Hparse, bind_lift_ok. unfold handle_query.
  rewrite Horg, bind_lift_ok, Horg_ids, bind_lift_ok, Hnum_ids, bind_lift_ok.
  destruct (has_key "denomIds" query_components) eqn:Hdenom.
  - destruct org_ids as [ | org_id org_ids].
    + eexists. split.
      { unfold bind, emit, ret. cbn. rewrite <- app_assoc. reflexivity. }
      repeat split; reflexivity.
    + destruct (check_for_mixed_code_types num_ids) eqn:Hmixed.
      * eexists. split.
        { unfold bind, emit, ret. cbn.
          rewrite <- app_assoc. reflexivity. }
        repeat split; reflexivity.
      * eexists. split.
        { unfold bind, emit, ret. cbn. reflexivity. }
        repeat split; reflexivity.
  - destruct Hbad as [Hbad | Hbad]; [discriminate | ].
    rewrite Hbad in Horg_ids. injection Horg_ids as <-.
    eexists. split.
    { unfold bind, emit, ret. cbn. reflexivity. }
    repeat split; reflexivity.
Qed.

End Handler.

Lemma on_button_unsupported_witness :
  exists es,
    on_button silent_api accept_netloc accept_netloc leave_escapes
      "https://openprescribing.net/analyse/#org=CCG&numIds=0212000AA&denomIds=2.12"
      []
    = ([] ++ es, Ok tt)
    /\ existsb is_error es = true
    /\ existsb is_call es = false
    /\ forallb (fun e => is_error e || is_warning e) es = true.
Proof.
  apply (on_button_unsupported silent_api accept_netloc accept_netloc
           leave_escapes
           "https://openprescribing.net/analyse/#org=CCG&numIds=0212000AA&denomIds=2.12"
           (<["denomIds" := ["2.12"]]>
              (<["numIds" := ["0212000AA"]]> (<["org" := ["CCG"]]> ∅)))
           []).
  - discriminate.
  - vm_compute. reflexivity.
  - left. vm_compute. reflexivity.
Defined.

(** ** Product names *)

Lemma dict_get_find (key : string) (default : json) (d : record) :
  dict_get key default d
  = match dict_find key d with Some v => v | None => default end.
Proof.
  induction d as [ | [k v] d IH]; [reflexivity | ].
  simpl. now destruct (String.eqb k key).
Qed.

(** The frame of the names: two columns, one row per lookup. *)
Lemma of_records_names (names : list (string * json)) :
  names <> [] ->
  Pandas.of_records (map (fun p => name_record (fst p) (snd p)) names)
  = {| columns := ["num_id"; "name"];
       rows := map (fun p => [Value (JString (fst p)); Value (snd p)]) names |}.
Proof.
  intros Hnames. unfold Pandas.of_records.
  assert (Hlabels :
            fold_left Pandas.add_labels
              (map (map fst) (map (fun p => name_record (fst p) (snd p)) names)) []
            = ["num_id"; "name"]).
  { destruct names as [ | p names]; [congruence | ]. simpl.
    change (Pandas.add_labels [] ["num_id"; "name"]) with ["num_id"; "name"].
    clear. induction names as [ | q names IH]; [reflexivity | ].
    simpl. exact IH. }
  rewrite Hlabels. f_equal. rewrite map_map. reflexivity.
Qed.

Lemma same_key_tag (c : cell) (num_id : string) :
  Pandas.same_key c (Value (JString num_id)) = true
  <-> Pandas.key_of c = Some num_id.
Proof.
  unfold Pandas.same_key. simpl. destruct (Pandas.key_of c) as [k | ].
  - rewrite String.eqb_eq. split; congruence.
  - split; discriminate.
Qed.

Lemma index_map (f : string -> string) (label : string) (labels : list string) :
  (forall l, String.eqb (f l) label = String.eqb l label) ->
  Pandas.index label (map f labels) = Pandas.index label labels.
Proof.
  intros Hf. induction labels as [ | l labels IH]; [reflexivity | ].
  simpl. now rewrite Hf, IH.
Qed.

Lemma index_app (label : string) (labels more : list string) (i : nat) :
  Pandas.index label labels = Some i ->
  Pandas.index label (labels ++ more) = Some i.
Proof.
  revert i. induction labels as [ | l labels IH]; intros i; [discriminate | ].
  simpl. destruct (String.eqb l label); [trivial | ].
  destruct (Pandas.index label labels) as [j | ]; [ | discriminate].
  intros [= <-]. now rewrite (IH j).
Qed.

(** Joining a frame with the frame of the names: the labels keep the
    place of [num_id], and every row is a row of the frame followed by
    one cell, the name found for its product or [NaN]. *)
Lemma merge_left_names (left merged : DataFrame) (names : list (string * json)) :
  names <> [] ->
  Pandas.merge_left "num_id" left
    (Pandas.of_records (map (fun p => name_record (fst p) (snd p)) names))
  = Ok merged ->
  exists i,
    Pandas.index "num_id" (columns left) = Some i
    /\ Pandas.index "num_id" (columns merged) = Some i
    /\ forall row, In row (rows merged) ->
         exists lrow,
           In lrow (rows left)
           /\ ((row = lrow ++ [NaN]
                /\ forall p, In p names ->
                     Pandas.key_of (nth i lrow NaN) <> Some (fst p))
               \/ exists p, In p names
                   /\ Pandas.key_of (nth i lrow NaN) = Some (fst p)
                   /\ row = lrow ++ [Value (snd p)]).
Proof.
  intros Hnames. rewrite of_records_names by assumption.
  unfold Pandas.merge_left. cbn [columns rows].
  destruct (Pandas.index "num_id" (columns left)) as [i | ] eqn:Hi;
    [ | discriminate].
  change (Pandas.index "num_id" ["num_id"; "name"]) with (Some 0).
  change (Pandas.without "num_id" ["num_id"; "name"]) with ["name"].
  cbv beta iota.
  match goal with |- (if ?c then _ else _) = _ -> _ => destruct c end;
    [discriminate | ].
  intros [= <-]. exists i. cbn [columns rows]. split; [reflexivity | ]. split.
  - apply index_app. rewrite index_map; [exact Hi | ].
    intros l. destruct (String.eqb_spec l "num_id") as [-> | Hne];
      [reflexivity | ].
    cbn [negb andb]. destruct (Pandas.has_label l (columns left)); cbn [andb];
      [ | now apply String.eqb_neq].
    unfold Pandas.has_label. cbn [existsb]. rewrite orb_false_r.
    destruct (String.eqb_spec l "name") as [-> | Hname];
      [reflexivity | now apply String.eqb_neq].
  - intros row Hrow. apply in_flat_map in Hrow.
    destruct Hrow as (lrow & Hlrow & Hrow). exists lrow. split; [exact Hlrow | ].
    match type of Hrow with
    | In _ (match ?matching with _ => _ end) =>
        destruct matching as [ | rrow found] eqn:Hfound
    end.
    + left. destruct Hrow as [<- | []]. split; [reflexivity | ].
      intros p Hp Hkey.
      assert (Hin : In [Value (JString (fst p)); Value (snd p)]
                       (List.filter
                          (fun rrow => Pandas.same_key (nth i lrow NaN)
                                                       (nth 0 rrow NaN))
                          (map (fun p => [Value (JString (fst p)); Value (snd p)])
                               names))).
      { apply filter_In. split.
        - apply in_map_iff. now exists p.
        - cbn [nth]. now apply same_key_tag. }
      rewrite Hfound in Hin. destruct Hin.
    + right.
      change (In row (map (fun rrow => lrow ++ [nth 1 rrow NaN]) (rrow :: found)))
        in Hrow.
      rewrite <- Hfound in Hrow. apply in_map_iff in Hrow.
      destruct Hrow as (found_row & <- & Hin).
      apply filter_In in Hin. destruct Hin as [Hin Hkey].
      apply in_map_iff in Hin. destruct Hin as (p & <- & Hp).
      exists p. split; [exact Hp | ]. split.
      * cbn [nth] in Hkey. now apply same_key_tag.
      * reflexivity.
Qed.

Lemma key_of_nth_app (i : nat) (row : list cell) (c : cell) (k : string) :
  Pandas.key_of (nth i row NaN) = Some k -> nth i (row ++ [c]) NaN = nth i row NaN.
Proof.
  intros Hkey. destruct (Nat.lt_ge_cases i (length row)) as [Hlt | Hge].
  - now apply app_nth1.
  - rewrite (nth_overflow row) in Hkey by assumption. discriminate.
Qed.

(** Rows tagged with a product whose every recorded name is the empty
    string end with the empty name. *)
Lemma merge_left_empty_name (left merged : DataFrame)
    (names : list (string * json)) (num_id : string) (row : list cell) :
  In num_id (map fst names) ->
  (forall name, In (num_id, name) names -> name = JString EmptyString) ->
  Pandas.merge_left "num_id" left
    (Pandas.of_records (map (fun p => name_record (fst p) (snd p)) names))
  = Ok merged ->
  In row (rows merged) ->
  row_num_id merged row = Some num_id ->
  last row = Some (Value (JString EmptyString)).
Proof.
  intros Hlisted Hempty Hmerge Hrow Htag.
  assert (Hnames : names <> []) by (intros ->; destruct Hlisted).
  destruct (merge_left_names left merged names Hnames Hmerge)
    as (i & Hi & Hi' & Hrows).
  unfold row_num_id in Htag. rewrite Hi' in Htag.
  destruct (Hrows row Hrow) as (lrow & _ & [[-> Hnone] | (p & Hp & Hkey & ->)]).
  - exfalso. apply in_map_iff in Hlisted. destruct Hlisted as (p & Hfst & Hp).
    destruct (Nat.lt_ge_cases i (length lrow)) as [Hlt | Hge].
    + rewrite app_nth1 in Htag by assumption.
      apply (Hnone p Hp). now rewrite Hfst.
    + rewrite app_nth2 in Htag by assumption.
      destruct (i - length lrow) as [ | [ | n]]; discriminate.
  - rewrite (key_of_nth_app _ _ _ _ Hkey) in Htag.
    assert (Hid : fst p = num_id) by congruence.
    destruct p as [id name]. simpl in Hid. subst id.
    rewrite (Hempty name Hp). apply last_snoc.
Qed.

(** C7. When the lookup answers, [fetch_name_for_num_id] returns the
    [name] of the first object of the answer (the empty string if that
    object has none), and the empty string when the answer is the empty
    array; the run goes on, and in the joined table every row tagged with
    a product whose lookups all came back empty ends with the empty
    name. *)
Theorem fetch_name_for_num_id_spec
    (api : trace -> string -> option (list record))
    (num_id : string) (t : trace) (data : list record) :
  api t (name_url num_id) = Some data ->
  exists name,
    fetch_name_for_num_id api num_id t
    = (t ++ [Requests_get (name_url num_id)], Ok name)
    /\ (forall first rest, data = first :: rest ->
          name = match dict_find "name" first with
                 | Some v => v
                 | None => JString EmptyString
                 end)
    /\ (data = [] ->
          name = JString EmptyString
          /\ forall left merged names row,
               In (num_id, name) names ->
               (forall n, In (num_id, n) names -> n = JString EmptyString) ->
               Pandas.merge_left "num_id" left
                 (Pandas.of_records
                    (map (fun p => name_record (fst p) (snd p)) names))
               = Ok merged ->
               In row (rows merged) ->
               row_num_id merged row = Some num_id ->
               last row = Some (Value (JString EmptyString))).
Proof.
  intros Hdata. unfold fetch_name_for_num_id, requests_get_json, bind.
  rewrite Hdata. destruct data as [ | first rest].
  - eexists. split; [reflexivity | ]. split; [discriminate | ].
    intros _. split; [reflexivity | ].
    intros left merged names row Hin Hempty Hmerge Hrow Htag.
    apply (merge_left_empty_name left merged names num_id row); trivial.
    apply in_map_iff. now exists (num_id, JString EmptyString).
  - eexists. split; [reflexivity | ]. split; [ | discriminate].
    intros first' rest' [= <- <-]. apply dict_get_find.
Qed.

Lemma fetch_name_for_num_id_spec_witness :
  exists name,
    fetch_name_for_num_id silent_api "0407010H0" []
    = ([] ++ [Requests_get (name_url "0407010H0")], Ok name)
    /\ (forall first rest, @nil record = first :: rest ->
          name = match dict_find "name" first with
                 | Some v => v
                 | None => JString EmptyString
                 end)
    /\ (@nil record = [] ->
          name = JString EmptyString
          /\ forall left merged names row,
               In ("0407010H0", name) names ->
               (forall n, In ("0407010H0", n) names -> n = JString EmptyString) ->
               Pandas.merge_left "num_id" left
                 (Pandas.of_records
                    (map (fun p => name_record (fst p) (snd p)) names))
               = Ok merged ->
               In row (rows merged) ->
               row_num_id merged row = Some "0407010H0" ->
               last row = Some (Value (JString EmptyString))).
Proof.
  apply (fetch_name_for_num_id_spec silent_api "0407010H0" [] []).
  reflexivity.
Defined.

(** The table of a run in which the lookup of the one product finds
    nothing and the service returns one spending record. *)
Example extract_data_unnamed_product :
  let api := fun (_ : trace) (url : string) =>
               if String.eqb url (name_url "0407010H0") then Some []
               else Some [[("items", JNumber "3"); ("actual_cost", JNumber "1.5");
                           ("row_name", JString "NHS DEVON")]] in
  let run := extract_data api "ccg" ["15N"] ["0407010H0"] [] in
  snd run = Ok tt
  /\ last (fst run)
     = Some (St_download_link
               {| columns := ["row_name"; "num_id"; "name"; "items"; "actual_cost"];
                  rows := [[Value (JString "NHS DEVON");
                            Value (JString "0407010H0");
                            Value (JString EmptyString);
                            Value (JNumber "3"); Value (JNumber "1.5")]] |}).
Proof. vm_compute. split; reflexivity. Qed.

(** ** Runs within the budget *)

(** Below the ceiling every percentage is defined and lies between 0 and
    100: checked on each pair of counts the gate lets through. *)
Lemma percent_table :
  forallb (fun total => forallb (fun count => percent_defined count total)
                                (seq 1 total))
          (seq 1 API_CALL_LIMIT) = true.
Proof. vm_compute. reflexivity. Qed.

Lemma percent_within_budget (call_count total_calls : nat) :
  1 <= call_count -> call_count <= total_calls ->
  total_calls <= API_CALL_LIMIT ->
  exists n, Progress.percent call_count total_calls = Ok n
            /\ (0 <= n <= 100)%Z.
Proof.
  intros Hone Hle Hlimit. pose proof percent_table as Htable.
  rewrite forallb_forall in Htable.
  specialize (Htable total_calls). rewrite forallb_forall in Htable.
  assert (Hdef : percent_defined call_count total_calls = true).
  { apply Htable; apply in_seq; lia. }
  unfold percent_defined in Hdef.
  destruct (Progress.percent call_count total_calls) as [n | e];
    [ | discriminate].
  exists n. split; [reflexivity | ]. apply andb_true_iff in Hdef. lia.
Qed.

Lemma bind_ok {A B} (m : M A) (k : A -> M B) (t t' : trace) (a : A) :
  m t = (t', Ok a) -> bind m k t = k a t'.
Proof. intros Hm. unfold bind. now rewrite Hm. Qed.

Lemma calls_events_nil : calls_events 0 [].
Proof. split; reflexivity. Qed.

Lemma calls_events_app (n m : nat) (es es' : list event) :
  calls_events n es -> calls_events m es' -> calls_events (n + m) (es ++ es').
Proof.
  intros [Hn Hes] [Hm Hes']. split.
  - rewrite List.filter_app, length_app. lia.
  - rewrite forallb_app. now rewrite Hes, Hes'.
Qed.

Lemma calls_events_quiet (n : nat) (es : list event) :
  calls_events n es ->
  existsb is_no_data_message es = false /\ existsb is_table_output es = false.
Proof.
  intros [_ Hes]. rewrite forallb_forall in Hes.
  split; apply not_true_is_false; rewrite existsb_exists;
    intros (e & Hin & He); specialize (Hes e Hin); now destruct e.
Qed.

Section WithinBudget.

Variable api : trace -> string -> option (list record).
Hypothesis api_answers : answers api.

Variable total_calls : nat.
Hypothesis total_within_limit : total_calls <= API_CALL_LIMIT.

Lemma requests_get_json_run (url : string) (t : trace) :
  exists data,
    requests_get_json api url t = (t ++ [Requests_get url], Ok data).
Proof.
  destruct (api_answers t url) as [data Hdata]. exists data.
  unfold requests_get_json. now rewrite Hdata.
Qed.

Lemma update_progress_run (call_count : nat) (t : trace) :
  1 <= call_count -> call_count <= total_calls ->
  exists es,
    update_progress call_count total_calls t = (t ++ es, Ok tt)
    /\ calls_events 0 es.
Proof.
  intros Hone Hle.
  destruct (percent_within_budget call_count total_calls Hone Hle
              total_within_limit) as (n & Hn & _).
  eexists. split.
  - unfold update_progress. rewrite Hn, bind_lift_ok, bind_emit, emit_run.
    rewrite <- app_assoc. reflexivity.
  - split; reflexivity.
Qed.

Lemma name_step_run (num_id : string) (call_count : nat)
    (num_id_names : list record) (t : trace) :
  call_count + 1 <= total_calls ->
  exists es name,
    name_step api total_calls num_id (call_count, num_id_names) t
    = (t ++ es, Ok (call_count + 1, num_id_names ++ [name_record num_id name]))
    /\ calls_events 1 es.
Proof.
  intros Hle.
  destruct (requests_get_json_run (name_url num_id) t) as [data Hdata].
  set (name := match data with
               | first :: _ => dict_get "name" (JString EmptyString) first
               | [] => JString EmptyString
               end).
  destruct (update_progress_run (call_count + 1)
              (t ++ [Requests_get (name_url num_id)])) as (es & Hes & Hquiet);
    [lia | exact Hle | ].
  exists (Requests_get (name_url num_id) :: es), name. split.
  - unfold name_step, fetch_name_for_num_id.
    assert (Hname : bind (requests_get_json api (name_url num_id))
                      (fun data => match data with
                                   | first :: _ =>
                                       ret (dict_get "name" (JString EmptyString) first)
                                   | [] => ret (JString EmptyString)
                                   end) t
                    = (t ++ [Requests_get (name_url num_id)], Ok name)).
    { rewrite (bind_ok _ _ _ _ _ Hdata). subst name. now destruct data. }
    rewrite (bind_ok _ _ _ _ _ Hname), (bind_ok _ _ _ _ _ Hes).
    unfold ret. now rewrite <- app_assoc.
  - apply (calls_events_app 1 0 [_] es); [split; reflexivity | exact Hquiet].
Qed.

Lemma name_loop_run (num_ids : list string) (call_count : nat)
    (num_id_names : list record) (t : trace) :
  call_count + length num_ids <= total_calls ->
  exists es names,
    for_each (name_step api total_calls) num_ids (call_count, num_id_names) t
    = (t ++ es, Ok (call_count + length num_ids, num_id_names ++ names))
    /\ length names = length num_ids
    /\ calls_events (length num_ids) es.
Proof.
  revert call_count num_id_names t.
  induction num_ids as [ | num_id num_ids IH];
    intros call_count num_id_names t Hle.
  - exists [], []. cbn [for_each length]. unfold ret.
    rewrite !app_nil_r, Nat.add_0_r. repeat split; reflexivity.
  - cbn [length] in Hle |- *.
    destruct (name_step_run num_id call_count num_id_names t)
      as (es1 & name & Hstep & Hes1); [lia | ].
    destruct (IH (call_count + 1) (num_id_names ++ [name_record num_id name])
                 (t ++ es1)) as (es2 & names & Hloop & Hlen & Hes2); [lia | ].
    exists (es1 ++ es2), (name_record num_id name :: names).
    split; [ | split].
    + cbn [for_each]. rewrite (bind_ok _ _ _ _ _ Hstep), Hloop.
      rewrite <- !app_assoc.
      now replace (call_count + 1 + length num_ids)
        with (call_count + S (length num_ids)) by lia.
    + cbn [length]. now rewrite Hlen.
    + apply (calls_events_app 1 (length num_ids)); assumption.
Qed.

Lemma spending_step_run (org org_id num_id : string) (call_count : nat)
    (dataframes : list DataFrame) (t : trace) :
  call_count + 1 <= total_calls ->
  exists es df,
    spending_step api org total_calls org_id num_id (call_count, dataframes) t
    = (t ++ es, Ok (call_count + 1, dataframes ++ [df]))
    /\ calls_events 1 es.
Proof.
  intros Hle.
  destruct (requests_get_json_run (spending_url num_id org_id org) t)
    as [data Hdata].
  destruct (update_progress_run (call_count + 1)
              (t ++ [Requests_get (spending_url num_id org_id org)]))
    as (es & Hes & Hquiet); [lia | exact Hle | ].
  eexists (Requests_get (spending_url num_id org_id org) :: es), _. split.
  - unfold spending_step.
    rewrite (bind_ok _ _ _ _ _ Hdata), (bind_ok _ _ _ _ _ Hes).
    unfold ret. rewrite <- app_assoc. reflexivity.
  - apply (calls_events_app 1 0 [_] es); [split; reflexivity | exact Hquiet].
Qed.

Lemma spending_inner_run (org org_id : string) (num_ids : list string)
    (call_count : nat) (dataframes : list DataFrame) (t : trace) :
  call_count + length num_ids <= total_calls ->
  exists es dfs,
    for_each (spending_step api org total_calls org_id) num_ids
             (call_count, dataframes) t
    = (t ++ es, Ok (call_count + length num_ids, dataframes ++ dfs))
    /\ length dfs = length num_ids
    /\ calls_events (length num_ids) es.
Proof.
  revert call_count dataframes t.
  induction num_ids as [ | num_id num_ids IH];
    intros call_count dataframes t Hle.
  - exists [], []. cbn [for_each length]. unfold ret.
    rewrite !app_nil_r, Nat.add_0_r. repeat split; reflexivity.
  - cbn [length] in Hle |- *.
    destruct (spending_step_run org org_id num_id call_count dataframes t)
      as (es1 & df & Hstep & Hes1); [lia | ].
    destruct (IH (call_count + 1) (dataframes ++ [df]) (t ++ es1))
      as (es2 & dfs & Hloop & Hlen & Hes2); [lia | ].
    exists (es1 ++ es2), (df :: dfs).
    split; [ | split].
    + cbn [for_each]. rewrite (bind_ok _ _ _ _ _ Hstep), Hloop.
      rewrite <- !app_assoc.
      now replace (call_count + 1 + length num_ids)
        with (call_count + S (length num_ids)) by lia.
    + cbn [length]. now rewrite Hlen.
    + apply (calls_events_app 1 (length num_ids)); assumption.
Qed.

Lemma spending_loop_run (org : string) (org_ids num_ids : list string)
    (call_count : nat) (dataframes : list DataFrame) (t : trace) :
  call_count + length org_ids * length num_ids <= total_calls ->
  exists es dfs,
    for_each (fun org_id =>
                for_each (spending_step api org total_calls org_id) num_ids)
             org_ids (call_count, dataframes) t
    = (t ++ es,
       Ok (call_count + length org_ids * length num_ids, dataframes ++ dfs))
    /\ length dfs = length org_ids * length num_ids
    /\ calls_events (length org_ids * length num_ids) es.
Proof.
  revert call_count dataframes t.
  induction org_ids as [ | org_id org_ids IH];
    intros call_count dataframes t Hle.
  - exists [], []. cbn [for_each length Nat.mul]. unfold ret.
    rewrite !app_nil_r, Nat.add_0_r. repeat split; reflexivity.
  - cbn [length Nat.mul] in Hle |- *.
    destruct (spending_inner_run org org_id num_ids call_count dataframes t)
      as (es1 & dfs1 & Hinner & Hlen1 & Hes1); [lia | ].
    destruct (IH (call_count + length num_ids) (dataframes ++ dfs1) (t ++ es1))
      as (es2 & dfs2 & Hloop & Hlen2 & Hes2); [lia | ].
    exists (es1 ++ es2), (dfs1 ++ dfs2).
    split; [ | split].
    + cbn [for_each]. rewrite (bind_ok _ _ _ _ _ Hinner), Hloop.
      rewrite <- !app_assoc.
      now replace (call_count + length num_ids + length org_ids * length num_ids)
        with (call_count + (length num_ids + length org_ids * length num_ids))
        by lia.
    + rewrite length_app. lia.
    + now apply calls_events_app.
Qed.

End WithinBudget.

Lemma bind_lift_raise {A B} (e : exn) (k : A -> M B) (t : trace) :
  bind (lift (Raise e)) k t = (t, Raise e).
Proof. reflexivity. Qed.

(** The branch [if dataframes:] looks at the number of frames only. *)
Lemma show_results_run (dataframes : list DataFrame) (num_id_df : DataFrame)
    (t : trace) :
  exists es r,
    show_results dataframes num_id_df t = (t ++ es, r)
    /\ List.filter is_request es = []
    /\ (existsb is_no_data_message es = true <-> dataframes = [])
    /\ (existsb is_table_output es = true -> dataframes <> [])
    /\ (r = Ok tt -> dataframes <> [] -> existsb is_table_output es = true).
Proof.
  destruct dataframes as [ | df dataframes].
  - exists [St_write [Lit "No data returned from API calls."]], (Ok tt).
    repeat split; try reflexivity; try discriminate; congruence.
  - unfold show_results.
    change (Pandas.concat (df :: dataframes))
      with (Ok {| columns := fold_left Pandas.add_labels
                               (map columns (df :: dataframes)) [];
                  rows := flat_map
                            (fun d => map (Pandas.realign (columns d)
                                             (fold_left Pandas.add_labels
                                                (map columns (df :: dataframes)) []))
                                          (rows d))
                            (df :: dataframes) |}).
    rewrite bind_lift_ok.
    match goal with
    | |- context [Pandas.merge_left ?k ?l ?r] =>
        destruct (Pandas.merge_left k l r) as [merged | e]
    end.
    + rewrite bind_lift_ok.
      destruct (Pandas.getitem (reorder_columns (columns merged)) merged)
        as [final_df | e].
      * rewrite bind_lift_ok, bind_emit, emit_run, <- app_assoc.
        exists [St_dataframe final_df; St_download_link final_df], (Ok tt).
        repeat split; try reflexivity; try discriminate.
      * rewrite bind_lift_raise. exists [], (Raise e). rewrite app_nil_r.
        repeat split; try reflexivity; try discriminate.
    + rewrite bind_lift_raise. exists [], (Raise e). rewrite app_nil_r.
      repeat split; try reflexivity; try discriminate.
Qed.

(** Within the budget, and with a service that answers, [extract_data]
    issues as many requests as [calculate_api_calls] counts; it takes the
    branch without data exactly when it made no spending call, whatever
    the calls returned. *)
Theorem extract_data_within_budget
    (api : trace -> string -> option (list record))
    (org : string) (org_ids num_ids : list string) (t : trace) :
  answers api ->
  calculate_api_calls org_ids num_ids <= API_CALL_LIMIT ->
  exists es r,
    extract_data api org org_ids num_ids t = (t ++ es, r)
    /\ length (List.filter is_request es) = calculate_api_calls org_ids num_ids
    /\ (existsb is_no_data_message es = true <-> org_ids = [] \/ num_ids = [])
    /\ (r = Ok tt -> org_ids <> [] -> num_ids <> [] ->
        existsb is_table_output es = true).
Proof.
  intros Hanswers Hbudget. unfold extract_data.
  replace (API_CALL_LIMIT <? calculate_api_calls org_ids num_ids)%nat
    with false by (symmetry; apply Nat.ltb_ge; exact Hbudget).
  unfold calculate_api_calls in Hbudget |- *.
  set (total_calls := length num_ids + length org_ids * length num_ids) in *.
  rewrite !bind_emit.
  match goal with
  | |- context [bind (for_each (name_step _ _) _ _) _ ?t0] => set (t1 := t0)
  end.
  destruct (name_loop_run api Hanswers total_calls Hbudget num_ids 0 [] t1)
    as (es1 & names & Hnames & _ & Hes1); [subst total_calls; lia | ].
  rewrite (bind_ok _ _ _ _ _ Hnames). cbv beta iota.
  destruct (spending_loop_run api Hanswers total_calls Hbudget org org_ids
              num_ids (0 + length num_ids) [] (t1 ++ es1))
    as (es2 & dfs & Hdfs & Hlen & Hes2); [subst total_calls; lia | ].
  rewrite (bind_ok _ _ _ _ _ Hdfs). cbv beta iota.
  rewrite !bind_emit.
  match goal with
  | |- context [show_results ?d ?n ?t0] =>
      destruct (show_results_run d n t0)
        as (es3 & r & Hshow & Hreq3 & Hnodata3 & _ & Htable3)
  end.
  rewrite Hshow. subst t1. cbn [app] in Hnodata3, Htable3.
  exists ([St_write [Lit "Select organisation type: "; FStr org];
           St_write [Lit "Selected organisations: "; FList org_ids];
           St_write [Lit "Selected products: "; FList num_ids];
           St_write [Lit "Number of API calls needed: ";
                     FInt (Z.of_nat total_calls)];
           St_empty; St_progress 0]
          ++ es1 ++ es2
          ++ [St_write [Lit "---"]; St_write [Lit "### Results:"]] ++ es3), r.
  destruct (calls_events_quiet _ _ Hes1) as [Hquiet1 Htab1].
  destruct (calls_events_quiet _ _ Hes2) as [Hquiet2 Htab2].
  destruct Hes1 as [Hcount1 _]. destruct Hes2 as [Hcount2 _].
  assert (Hdfs_nil : dfs = [] <-> org_ids = [] \/ num_ids = []).
  { rewrite <- length_zero_iff_nil, Hlen, Nat.mul_eq_0.
    now rewrite !length_zero_iff_nil. }
  split; [ | split; [ | split]].
  - rewrite <- !app_assoc. reflexivity.
  - rewrite !List.filter_app, !length_app, Hcount1, Hcount2, Hreq3.
    cbn [List.filter is_request length]. subst total_calls. lia.
  - rewrite !existsb_app, Hquiet1, Hquiet2. cbn [app existsb orb].
    change (is_no_data_message (St_write [Lit "---"])) with false.
    change (is_no_data_message (St_write [Lit "### Results:"])) with false.
    cbn [orb]. rewrite <- Hdfs_nil. exact Hnodata3.
  - intros Hr Horg Hnum. rewrite !existsb_app, Htab1, Htab2.
    cbn [app existsb orb is_table_output]. apply Htable3; [exact Hr | ].
    rewrite Hdfs_nil. tauto.
Qed.

Lemma extract_data_within_budget_example :
  exists es r,
    extract_data silent_api "ccg" ["03Q"; "15N"] ["0407010H0"; "0212000AA"] []
    = ([] ++ es, r)
    /\ length (List.filter is_request es) = 6
    /\ existsb is_no_data_message es = false.
Proof.
  destruct (extract_data_within_budget silent_api "ccg" ["03Q"; "15N"]
              ["0407010H0"; "0212000AA"] [])
    as (es & r & Hrun & Hcount & Hnodata & _).
  - intros t url. now exists [].
  - vm_compute. lia.
  - exists es, r. split; [exact Hrun | ]. split; [exact Hcount | ].
    apply not_true_is_false. rewrite Hnodata. intros [H | H]; discriminate.
Qed.


(** ** Runs with any service *)

Lemma filter_request_progress (es : list event) :
  forallb is_progress es = true -> List.filter is_request es = [].
Proof.
  induction es as [ | e es IH]; [reflexivity | ].
  simpl. intros [He Hes]%andb_true_iff. rewrite IH by assumption.
  now destruct e.
Qed.

Lemma forallb_progress_weaken (es : list event) :
  forallb is_progress es = true ->
  forallb (fun e => is_request e || is_progress e) es = true.
Proof.
  rewrite !forallb_forall. intros H e He. rewrite (H e He). apply orb_true_r.
Qed.

Lemma issues_nothing {X} (inv : nat * X -> Prop) (faulty : Prop)
    (total_calls : nat) :
  issues inv faulty total_calls ret 0 [].
Proof.
  intros call_count x t Hinv _. exists [], (Ok (call_count, x)).
  unfold ret. rewrite app_nil_r, Nat.add_0_r.
  split; [reflexivity | ]. split; [reflexivity | ]. left. now exists x.
Qed.

(** One piece after another. *)
Lemma issues_bind {X} (inv : nat * X -> Prop) (faulty : Prop)
    (total_calls : nat) (m k : nat * X -> M (nat * X)) (n n' : nat)
    (reqs reqs' : list event) :
  issues inv faulty total_calls m n reqs ->
  issues inv faulty total_calls k n' reqs' ->
  issues inv faulty total_calls (fun s => bind (m s) k) (n + n')
         (reqs ++ reqs').
Proof.
  intros Hm Hk call_count x t Hinv Hroom.
  destruct (Hm call_count x t) as (es & r & Hrun & Hes & Hr);
    [exact Hinv | lia | ].
  destruct Hr as [(x' & -> & Hinv' & Hreqs) | (-> & Hfaulty & Hprefix & Hlast)].
  - destruct (Hk (call_count + n) x' (t ++ es))
      as (es' & r' & Hrun' & Hes' & Hr'); [exact Hinv' | lia | ].
    exists (es ++ es'), r'. split; [ | split].
    + rewrite (bind_ok _ _ _ _ _ Hrun), Hrun'. now rewrite <- app_assoc.
    + rewrite forallb_app. now rewrite Hes, Hes'.
    + rewrite List.filter_app, Hreqs.
      destruct Hr'
        as [(x'' & -> & Hinv'' & Hreqs')
           | (-> & Hfaulty & Hprefix' & url & Hlast')].
      * left. exists x''. rewrite Hreqs', Nat.add_assoc. now repeat split.
      * right. split; [reflexivity | ]. split; [exact Hfaulty | ].
        split; [now apply prefix_app | ].
        exists url. rewrite last_app, Hlast'. reflexivity.
  - exists es, (Raise RequestFault). split; [ | split]; [ | exact Hes | ].
    + unfold bind. now rewrite Hrun.
    + right. split; [reflexivity | ]. split; [exact Hfaulty | ].
      split; [now apply prefix_app_r | exact Hlast].
Qed.

(** A loop whose body makes [n] calls at each turn. *)
Lemma issues_for_each {A X} (inv : nat * X -> Prop) (faulty : Prop)
    (total_calls : nat) (body : A -> nat * X -> M (nat * X)) (n : nat)
    (reqs : A -> list event) (l : list A) :
  (forall a, issues inv faulty total_calls (body a) n (reqs a)) ->
  issues inv faulty total_calls (for_each body l) (length l * n)
         (flat_map reqs l).
Proof.
  intros Hbody. induction l as [ | a l IH].
  - apply issues_nothing.
  - cbn [for_each length Nat.mul flat_map].
    apply (issues_bind inv faulty total_calls (body a) (for_each body l)); auto.
Qed.



Lemma index_has_label (label : string) (labels : list string) :
  Pandas.has_label label labels = true
  <-> exists i, Pandas.index label labels = Some i.
Proof.
  unfold Pandas.has_label.
  induction labels as [ | l labels IH]; simpl.
  - split; [discriminate | intros [i [=]]].
  - rewrite (String.eqb_sym label l). destruct (String.eqb l label); simpl.
    + split; eauto.
    + rewrite IH. split; intros [i Hi].
      * rewrite Hi. now exists (S i).
      * destruct (Pandas.index label labels) as [j | ]; [eauto | discriminate].
Qed.

Lemma has_label_app (label : string) (labels more : list string) :
  Pandas.has_label label (labels ++ more)
  = Pandas.has_label label labels || Pandas.has_label label more.
Proof. unfold Pandas.has_label. apply existsb_app. Qed.

(** After [df['num_id'] = num_id] the frame has the column. *)
Lemma setitem_has_label (label : string) (v : json) (df : DataFrame) :
  Pandas.has_label label (columns (Pandas.setitem label v df)) = true.
Proof.
  unfold Pandas.setitem.
  destruct (Pandas.index label (columns df)) as [i | ] eqn:Hi; cbn [columns].
  - apply index_has_label. now exists i.
  - rewrite has_label_app. unfold Pandas.has_label at 2. cbn [existsb].
    rewrite String.eqb_refl. apply orb_true_r.
Qed.

Lemma name_step_issues (api : trace -> string -> option (list record))
    (total_calls : nat) (num_id : string) :
  total_calls <= API_CALL_LIMIT ->
  issues names_so_far (exists t url, api t url = None) total_calls
         (name_step api total_calls num_id) 1
         [Requests_get (name_url num_id)].
Proof.
  intros Hlimit call_count num_id_names t [Hlen [l Hl]] Hroom.
  cbn [fst snd] in Hlen, Hl.
  unfold name_step, fetch_name_for_num_id, requests_get_json.
  destruct (api t (name_url num_id)) as [data | ] eqn:Hdata.
  - destruct (update_progress_run total_calls Hlimit (call_count + 1)
                (t ++ [Requests_get (name_url num_id)]))
      as (es & Hes & Hcount & Hquiet); [lia | exact Hroom | ].
    apply length_zero_iff_nil in Hcount.
    set (name := match data with
                 | first :: _ => dict_get "name" (JString EmptyString) first
                 | [] => JString EmptyString
                 end).
    exists (Requests_get (name_url num_id) :: es),
           (Ok (call_count + 1, num_id_names ++ [name_record num_id name])).
    split; [ | split].
    + unfold bind at 1. unfold bind at 1. rewrite Hdata.
      assert (Hname : forall t',
                 (match data with
                  | first :: _ => ret (dict_get "name" (JString EmptyString) first)
                  | [] => ret (JString EmptyString)
                  end) t' = (t', Ok name))
        by (intros t'; subst name; now destruct data).
      rewrite Hname, (bind_ok _ _ _ _ _ Hes). unfold ret.
      rewrite <- app_assoc. reflexivity.
    + exact Hquiet.
    + left. eexists. split; [reflexivity | ]. split.
      * split; cbn [fst snd].
        -- rewrite length_app. cbn [length]. lia.
        -- exists (l ++ [(num_id, name)]). rewrite map_app, Hl. reflexivity.
      * cbn [List.filter is_request]. now rewrite Hcount.
  - exists [Requests_get (name_url num_id)], (Raise RequestFault).
    split; [ | split]; [ | reflexivity | ].
    + unfold bind. now rewrite Hdata.
    + right. split; [reflexivity | ]. split; [eexists _, _; exact Hdata | ].
      split; [reflexivity | ]. now eexists.
Qed.

Lemma spending_step_issues (api : trace -> string -> option (list record))
    (good : DataFrame -> Prop) (org : string) (total_calls lookups : nat)
    (org_id num_id : string) :
  total_calls <= API_CALL_LIMIT ->
  (forall t data,
      api t (spending_url num_id org_id org) = Some data ->
      good (Pandas.setitem "num_id" (JString num_id) (Pandas.of_records data))) ->
  issues (frames_so_far good lookups) (exists t url, api t url = None)
         total_calls (spending_step api org total_calls org_id num_id) 1
         [Requests_get (spending_url num_id org_id org)].
Proof.
  intros Hlimit Hgood call_count dataframes t [Hlen Hframes] Hroom.
  cbn [fst snd] in Hlen, Hframes.
  unfold spending_step, requests_get_json.
  destruct (api t (spending_url num_id org_id org)) as [data | ] eqn:Hdata.
  - destruct (update_progress_run total_calls Hlimit (call_count + 1)
                (t ++ [Requests_get (spending_url num_id org_id org)]))
      as (es & Hes & Hcount & Hquiet); [lia | exact Hroom | ].
    apply length_zero_iff_nil in Hcount.
    eexists (Requests_get (spending_url num_id org_id org) :: es), _.
    split; [ | split].
    + unfold bind at 1. rewrite Hdata, (bind_ok _ _ _ _ _ Hes). unfold ret.
      rewrite <- app_assoc. reflexivity.
    + exact Hquiet.
    + left. eexists. split; [reflexivity | ]. split.
      * split; cbn [fst snd].
        -- rewrite length_app. cbn [length]. lia.
        -- apply Forall_app. split; [exact Hframes | ].
           constructor; [ | constructor].
           split; [apply setitem_has_label | now apply (Hgood t)].
      * cbn [List.filter is_request]. now rewrite Hcount.
  - exists [Requests_get (spending_url num_id org_id org)], (Raise RequestFault).
    split; [ | split]; [ | reflexivity | ].
    + unfold bind. now rewrite Hdata.
    + right. split; [reflexivity | ]. split; [eexists _, _; exact Hdata | ].
      split; [reflexivity | ]. now eexists.
Qed.

Lemma flat_map_singleton {A B} (f : A -> B) (l : list A) :
  flat_map (fun a => [f a]) l = map f l.
Proof. induction l as [ | a l IH]; [reflexivity | ]. simpl. now rewrite IH. Qed.


(** *** Labels through the frame operations *)

Lemma add_labels_keeps (seen new : list string) (label : string) :
  Pandas.has_label label seen = true ->
  Pandas.has_label label (Pandas.add_labels seen new) = true.
Proof.
  unfold Pandas.add_labels. revert seen.
  induction new as [ | l new IH]; intros seen Hseen; [exact Hseen | ].
  cbn [fold_left]. apply IH.
  destruct (Pandas.has_label l seen); [exact Hseen | ].
  rewrite has_label_app, Hseen. reflexivity.
Qed.

Lemma add_labels_adds (seen new : list string) (label : string) :
  Pandas.has_label label new = true ->
  Pandas.has_label label (Pandas.add_labels seen new) = true.
Proof.
  revert seen. induction new as [ | l new IH]; intros seen; [discriminate | ].
  unfold Pandas.has_label at 1. cbn [existsb].
  destruct (String.eqb_spec label l) as [<- | Hne]; cbn [orb].
  - intros _. unfold Pandas.add_labels. cbn [fold_left].
    apply (add_labels_keeps _ new).
    destruct (Pandas.has_label label seen) eqn:Hseen; [exact Hseen | ].
    rewrite has_label_app. unfold Pandas.has_label at 2. cbn [existsb].
    rewrite String.eqb_refl. apply orb_true_r.
  - intros Hnew. unfold Pandas.add_labels. cbn [fold_left]. now apply IH.
Qed.

Lemma fold_add_labels_keeps (lists : list (list string)) (seen : list string)
    (label : string) :
  Pandas.has_label label seen = true ->
  Pandas.has_label label (fold_left Pandas.add_labels lists seen) = true.
Proof.
  revert seen. induction lists as [ | new lists IH]; intros seen Hseen;
    [exact Hseen | ].
  cbn [fold_left]. apply IH. now apply add_labels_keeps.
Qed.

(** The frame that [pd.concat] builds has every column of the first
    frame. *)
Lemma concat_has_label (df : DataFrame) (frames : list DataFrame)
    (label : string) :
  Pandas.has_label label (columns df) = true ->
  exists all,
    Pandas.concat (df :: frames) = Ok all
    /\ Pandas.has_label label (columns all) = true.
Proof.
  intros Hdf. eexists. split; [reflexivity | ]. cbn [columns map fold_left].
  apply fold_add_labels_keeps. now apply add_labels_adds.
Qed.

(** *** The reordering as a permutation *)

Lemma pop_first_Permutation (col : string) (cols : list string) :
  Pandas.has_label col cols = true ->
  Permutation (pop_first col cols ++ [col]) cols.
Proof.
  unfold Pandas.has_label.
  induction cols as [ | c cols IH]; [discriminate | ].
  cbn [existsb pop_first]. rewrite (String.eqb_sym col c).
  destruct (String.eqb_spec c col) as [-> | Hne]; cbn [orb].
  - intros _. symmetry. apply Permutation_cons_append.
  - intros Hcols. cbn [app]. constructor. now apply IH.
Qed.

Lemma move_last_Permutation (cols : list string) (col : string) :
  Permutation (move_last cols col) cols.
Proof.
  unfold move_last. destruct (Pandas.has_label col cols) eqn:Hcol;
    [now apply pop_first_Permutation | reflexivity].
Qed.

Lemma fold_move_last_Permutation (moved cols : list string) :
  Permutation (fold_left move_last moved cols) cols.
Proof.
  revert cols. induction moved as [ | m moved IH]; intros cols; [reflexivity | ].
  cbn [fold_left]. rewrite IH. apply move_last_Permutation.
Qed.

(** [final_df[cols]] finds every label it is asked for. *)
Lemma getitem_reordered (df : DataFrame) :
  exists final_df,
    Pandas.getitem (reorder_columns (columns df)) df = Ok final_df.
Proof.
  unfold Pandas.getitem.
  assert (Hall : forallb (fun l => Pandas.has_label l (columns df))
                         (reorder_columns (columns df)) = true).
  { apply forallb_forall. intros l Hl. apply has_label_In.
    apply (Permutation_in l (fold_move_last_Permutation moved_columns (columns df))).
    exact Hl. }
  rewrite Hall. now eexists.
Qed.

Lemma merge_left_found (key : string) (left right : DataFrame) :
  Pandas.has_label key (columns left) = true ->
  Pandas.has_label key (columns right) = true ->
  (exists merged, Pandas.merge_left key left right = Ok merged)
  \/ Pandas.merge_left key left right = Raise MergeError.
Proof.
  intros [i Hi]%index_has_label [j Hj]%index_has_label.
  unfold Pandas.merge_left. rewrite Hi, Hj.
  match goal with |- context [if ?c then _ else _] => destruct c end;
    [now right | left; now eexists].
Qed.

(** What the branch [if dataframes:] emits when every frame has the
    column [num_id] and the frame of the names is not empty: the message,
    or the table and the link to the same table, or nothing when the join
    refuses its suffixes. *)
Lemma show_results_outcomes (dataframes : list DataFrame)
    (names : list (string * json)) (t : trace) :
  Forall (fun df => Pandas.has_label "num_id" (columns df) = true) dataframes ->
  (dataframes <> [] -> names <> []) ->
  exists es r,
    show_results dataframes
      (Pandas.of_records (map (fun p => name_record (fst p) (snd p)) names)) t
    = (t ++ es, r)
    /\ ((es = [St_write [Lit "No data returned from API calls."]]
         /\ r = Ok tt /\ dataframes = [])
        \/ (exists final_df,
               es = [St_dataframe final_df; St_download_link final_df]
               /\ r = Ok tt /\ dataframes <> [])
        \/ (es = [] /\ r = Raise MergeError /\ dataframes <> [])).
Proof.
  intros Hframes Hnames.
  destruct dataframes as [ | df dataframes].
  - eexists _, _. split; [reflexivity | ]. left. now repeat split.
  - assert (Hnonempty : names <> []) by now apply Hnames.
    apply Forall_cons in Hframes. destruct Hframes as [Hdf _].
    destruct (concat_has_label df dataframes "num_id" Hdf)
      as (all & Hconcat & Hall).
    unfold show_results. rewrite Hconcat, bind_lift_ok.
    rewrite (of_records_names names Hnonempty).
    destruct (merge_left_found "num_id" all
                {| columns := ["num_id"; "name"];
                   rows := map (fun p => [Value (JString (fst p)); Value (snd p)])
                               names |} Hall eq_refl)
      as [[merged Hmerge] | Hmerge]; rewrite Hmerge.
    + rewrite bind_lift_ok.
      destruct (getitem_reordered merged) as [final_df Hfinal].
      rewrite Hfinal, bind_lift_ok, bind_emit, emit_run, <- app_assoc.
      eexists _, _. split; [reflexivity | ]. right. left.
      exists final_df. now repeat split.
    + rewrite bind_lift_raise. exists [], (Raise MergeError).
      rewrite app_nil_r. split; [reflexivity | ]. right. right.
      now repeat split.
Qed.

Lemma run_emitted_unique {A} (t es es' : trace) (r r' : result A) :
  (t ++ es, r) = (t ++ es', r') -> es = es' /\ r = r'.
Proof. intros [= Hes Hr]. split; [now apply app_inv_head in Hes | exact Hr]. Qed.



Lemma request_progress_quiet (es : list event) :
  forallb (fun e => is_request e || is_progress e) es = true ->
  existsb is_no_data_message es = false /\ existsb is_table_output es = false.
Proof.
  intros Hes.
  apply (calls_events_quiet (length (List.filter is_request es))).
  now split.
Qed.

(** The two loops of [extract_data] within the budget: either a request
    raises, and the run stops there, or all planned requests are made,
    the frames collected all have the column [num_id] and the property
    [good] that every spending answer gives its frame, and the run ends
    with [show_results] on these frames and the frame of the names. *)
Lemma extract_data_loops
    (api : trace -> string -> option (list record)) (good : DataFrame -> Prop)
    (org : string) (org_ids num_ids : list string) (t : trace) :
  calculate_api_calls org_ids num_ids <= API_CALL_LIMIT ->
  (forall t' org_id num_id data,
      api t' (spending_url num_id org_id org) = Some data ->
      good (Pandas.setitem "num_id" (JString num_id) (Pandas.of_records data))) ->
  exists es r,
    extract_data api org org_ids num_ids t = (t ++ es, r)
    /\ ((r = Raise RequestFault
         /\ (exists t' url, api t' url = None)
         /\ List.filter is_request es
            `prefix_of` planned_requests org org_ids num_ids
         /\ (exists url, last es = Some (Requests_get url))
         /\ existsb is_table_output es = false
         /\ existsb is_no_data_message es = false)
        \/ (exists es0 dfs names,
               List.filter is_request es0 = planned_requests org org_ids num_ids
               /\ existsb is_table_output es0 = false
               /\ existsb is_no_data_message es0 = false
               /\ Forall (fun df => Pandas.has_label "num_id" (columns df) = true
                                    /\ good df) dfs
               /\ (dfs <> [] -> names <> [])
               /\ (dfs = [] <-> org_ids = [] \/ num_ids = [])
               /\ show_results dfs
                    (Pandas.of_records
                       (map (fun p => name_record (fst p) (snd p)) names))
                    (t ++ es0)
                  = (t ++ es, r))).
Proof.
  intros Hbudget Hgood. unfold extract_data.
  replace (API_CALL_LIMIT <? calculate_api_calls org_ids num_ids)%nat
    with false by (symmetry; apply Nat.ltb_ge; exact Hbudget).
  unfold calculate_api_calls in Hbudget |- *.
  set (total_calls := length num_ids + length org_ids * length num_ids) in *.
  set (header := [St_write [Lit "Select organisation type: "; FStr org];
                  St_write [Lit "Selected organisations: "; FList org_ids];
                  St_write [Lit "Selected products: "; FList num_ids];
                  St_write [Lit "Number of API calls needed: ";
                            FInt (Z.of_nat total_calls)];
                  St_empty; St_progress 0]).
  rewrite !bind_emit.
  replace (((((((t ++ [St_write [Lit "Select organisation type: "; FStr org]])
                ++ [St_write [Lit "Selected organisations: "; FList org_ids]])
               ++ [St_write [Lit "Selected products: "; FList num_ids]])
              ++ [St_write [Lit "Number of API calls needed: ";
                            FInt (Z.of_nat total_calls)]])
             ++ [St_empty]) ++ [St_progress 0]))
    with (t ++ header) by (subst header; now rewrite <- !app_assoc).
  assert (Hheader : List.filter is_request header = []
                    /\ existsb is_table_output header = false
                    /\ existsb is_no_data_message header = false)
    by (subst header; repeat split; reflexivity).
  destruct Hheader as (Hreq0 & Htab0 & Hmsg0).
  pose proof (issues_for_each names_so_far (exists t' url, api t' url = None)
                total_calls
                (name_step api total_calls) 1
                (fun num_id => [Requests_get (name_url num_id)]) num_ids
                (fun num_id => name_step_issues api total_calls num_id Hbudget))
    as Hnames.
  destruct (Hnames 0 [] (t ++ header))
    as (es1 & r1 & Hrun1 & Hes1 & Hr1);
    [split; [reflexivity | now exists []] | subst total_calls; lia | ].
  rewrite flat_map_singleton in Hr1.
  destruct (request_progress_quiet es1 Hes1) as [Hmsg1 Htab1].
  destruct Hr1
    as [(names & -> & (Hlen1 & l & Hl) & Hreq1) | (-> & Hfaulty1 & Hprefix1 & url & Hlast1)].
  - rewrite (bind_ok _ _ _ _ _ Hrun1). cbv beta iota.
    cbn [fst snd] in Hlen1, Hl. subst names. rewrite length_map in Hlen1.
    pose proof (issues_for_each (frames_so_far good (length num_ids))
                  (exists t' url, api t' url = None) total_calls
                  (fun org_id =>
                     for_each (spending_step api org total_calls org_id) num_ids)
                  (length num_ids * 1)
                  (fun org_id =>
                     flat_map (fun num_id =>
                                 [Requests_get (spending_url num_id org_id org)])
                              num_ids)
                  org_ids
                  (fun org_id =>
                     issues_for_each (frames_so_far good (length num_ids))
                       (exists t' url, api t' url = None) total_calls
                       (spending_step api org total_calls org_id) 1
                       (fun num_id =>
                          [Requests_get (spending_url num_id org_id org)])
                       num_ids
                       (fun num_id =>
                          spending_step_issues api good org total_calls
                            (length num_ids) org_id num_id Hbudget
                            (fun t' data => Hgood t' org_id num_id data))))
      as Hspending.
    destruct (Hspending (0 + length num_ids * 1) [] ((t ++ header) ++ es1))
      as (es2 & r2 & Hrun2 & Hes2 & Hr2);
      [split; [cbn [fst snd length]; lia | constructor]
      | subst total_calls; lia | ].
    rewrite (flat_map_ext _ _ (fun org_id => flat_map_singleton _ num_ids))
      in Hr2.
    destruct (request_progress_quiet es2 Hes2) as [Hmsg2 Htab2].
    destruct Hr2
      as [(dfs & -> & (Hlen2 & Hframes) & Hreq2) | (-> & Hfaulty2 & Hprefix2 & url & Hlast2)].
    + cbn [fst snd] in Hlen2, Hframes.
      rewrite (bind_ok _ _ _ _ _ Hrun2). cbv beta iota. rewrite !bind_emit.
      assert (Hl_nonempty : dfs <> [] -> l <> []).
      { intros Hdfs ->. destruct dfs; [congruence | ].
        cbn [length] in Hlen1, Hlen2. rewrite <- Hlen1 in Hlen2. lia. }
      assert (Hdfs_nil : dfs = [] <-> org_ids = [] \/ num_ids = []).
      { rewrite <- !length_zero_iff_nil. split.
        - intros Hzero. rewrite Hzero in Hlen2.
          assert (length org_ids * length num_ids = 0) by lia.
          now apply Nat.mul_eq_0.
        - intros Hzero. apply Nat.mul_eq_0 in Hzero. lia. }
      set (es0 := header ++ es1 ++ es2
                  ++ [St_write [Lit "---"]; St_write [Lit "### Results:"]]).
      match goal with
      | |- context [show_results dfs ?n ?t0] =>
          replace t0 with (t ++ es0)
            by (subst es0; now rewrite <- !app_assoc);
          destruct (show_results_run dfs n (t ++ es0))
            as (es3 & r & Hshow & _)
      end.
      rewrite Hshow. exists (es0 ++ es3), r.
      split; [now rewrite app_assoc | ]. right.
      exists es0, dfs, l.
      split; [ | split; [ | split; [ | split; [ | split; [ | split]]]]].
      * subst es0. rewrite !List.filter_app, Hreq0, Hreq1, Hreq2.
        unfold planned_requests. cbn [app List.filter is_request].
        now rewrite app_nil_r.
      * subst es0. now rewrite !existsb_app, Htab0, Htab1, Htab2.
      * subst es0. now rewrite !existsb_app, Hmsg0, Hmsg1, Hmsg2.
      * exact Hframes.
      * exact Hl_nonempty.
      * exact Hdfs_nil.
      * rewrite Hshow. now rewrite app_assoc.
    + exists (header ++ es1 ++ es2), (Raise RequestFault).
      split.
      { unfold bind at 1. rewrite Hrun2. now rewrite <- !app_assoc. }
      left. split; [reflexivity | ]. split; [exact Hfaulty2 | ].
      split; [ | split; [ | split]].
      * rewrite !List.filter_app, Hreq0, Hreq1. cbn [app].
        now apply prefix_app.
      * exists url. now rewrite !last_app, Hlast2.
      * now rewrite !existsb_app, Htab0, Htab1, Htab2.
      * now rewrite !existsb_app, Hmsg0, Hmsg1, Hmsg2.
  - exists (header ++ es1), (Raise RequestFault).
    split.
    { unfold bind at 1. rewrite Hrun1. now rewrite <- !app_assoc. }
    left. split; [reflexivity | ]. split; [exact Hfaulty1 | ].
    split; [ | split; [ | split]].
    + rewrite !List.filter_app, Hreq0. cbn [app].
      now apply prefix_app_r.
    + exists url. now rewrite !last_app, Hlast1.
    + now rewrite !existsb_app, Htab0, Htab1.
    + now rewrite !existsb_app, Hmsg0, Hmsg1.
Qed.


(** The shape of every run of [extract_data] within the budget: either a
    request raises, and the run stops there, or all planned requests are
    made and the run ends with what [show_results] emits. *)
Lemma extract_data_any_service
    (api : trace -> string -> option (list record))
    (org : string) (org_ids num_ids : list string) (t : trace) :
  calculate_api_calls org_ids num_ids <= API_CALL_LIMIT ->
  exists es r,
    extract_data api org org_ids num_ids t = (t ++ es, r)
    /\ ((r = Raise RequestFault
         /\ List.filter is_request es
            `prefix_of` planned_requests org org_ids num_ids
         /\ (exists url, last es = Some (Requests_get url))
         /\ existsb is_table_output es = false
         /\ existsb is_no_data_message es = false)
        \/ (List.filter is_request es = planned_requests org org_ids num_ids
            /\ exists es0 es3,
                es = es0 ++ es3
                /\ existsb is_table_output es0 = false
                /\ existsb is_no_data_message es0 = false
                /\ ((es3 = [St_write [Lit "No data returned from API calls."]]
                     /\ r = Ok tt)
                    \/ (exists final_df,
                           es3 = [St_dataframe final_df;
                                  St_download_link final_df]
                           /\ r = Ok tt)
                    \/ (es3 = [] /\ r = Raise MergeError)))).
Proof.
  intros Hbudget.
  destruct (extract_data_loops api (fun _ => True) org org_ids num_ids t Hbudget)
    as (es & r & Hrun & Hshape); [trivial | ].
  exists es, r. split; [exact Hrun | ].
  destruct Hshape
    as [(Hfault & _ & Hrest)
       | (es0 & dfs & names & Hreqs & Htab0 & Hmsg0 & Hframes & Hnames & _
          & Hshow)];
    [now left | right].
  assert (Hnum_id : Forall (fun df => Pandas.has_label "num_id" (columns df) = true)
                           dfs).
  { apply (Forall_impl _ _ _ Hframes). tauto. }
  destruct (show_results_outcomes dfs names (t ++ es0) Hnum_id Hnames)
    as (es3 & r' & Hshow' & Hcases).
  rewrite Hshow in Hshow'. rewrite <- app_assoc in Hshow'.
  apply run_emitted_unique in Hshow'. destruct Hshow' as [-> <-].
  assert (Hreq3 : List.filter is_request es3 = []).
  { destruct Hcases as [(-> & _) | [(df & -> & _) | (-> & _)]]; reflexivity. }
  split; [now rewrite List.filter_app, Hreqs, Hreq3, app_nil_r | ].
  exists es0, es3. repeat (split; [trivial | ]).
  destruct Hcases as [(-> & -> & _) | [(df & -> & -> & _) | (-> & -> & _)]].
  - now left.
  - right. left. now exists df.
  - right. right. now split.
Qed.


Lemma planned_requests_length (org : string) (org_ids num_ids : list string) :
  length (planned_requests org org_ids num_ids)
  = calculate_api_calls org_ids num_ids.
Proof.
  unfold planned_requests, calculate_api_calls.
  rewrite length_app, length_map. f_equal.
  induction org_ids as [ | org_id org_ids IH]; [reflexivity | ].
  cbn [flat_map length Nat.mul]. now rewrite length_app, length_map, IH.
Qed.

(** X1. When the service answers and the budget is within the ceiling,
    [extract_data] makes exactly the planned requests, in order: the
    lookup of each product in the order given, then the spending requests
    organisation by organisation and, for each, product by product. *)
Theorem extract_data_requests_in_order
    (api : trace -> string -> option (list record))
    (org : string) (org_ids num_ids : list string) (t : trace) :
  answers api ->
  calculate_api_calls org_ids num_ids <= API_CALL_LIMIT ->
  exists es r,
    extract_data api org org_ids num_ids t = (t ++ es, r)
    /\ List.filter is_request es
       = map (fun num_id => Requests_get (name_url num_id)) num_ids
         ++ flat_map
              (fun org_id =>
                 map (fun num_id => Requests_get (spending_url num_id org_id org))
                     num_ids)
              org_ids.
Proof.
  intros Hanswers Hbudget.
  destruct (extract_data_within_budget api org org_ids num_ids t Hanswers Hbudget)
    as (es & r & Hrun & Hcount & _).
  destruct (extract_data_any_service api org org_ids num_ids t Hbudget)
    as (es' & r' & Hrun' & Hshape).
  rewrite Hrun in Hrun'. apply run_emitted_unique in Hrun'.
  destruct Hrun' as [<- <-].
  exists es, r. split; [exact Hrun | ].
  change (List.filter is_request es = planned_requests org org_ids num_ids).
  destruct Hshape as [(_ & Hprefix & _) | (Hreqs & _)]; [ | exact Hreqs].
  apply prefix_length_eq; [exact Hprefix | ].
  rewrite planned_requests_length, Hcount. reflexivity.
Qed.

Lemma extract_data_requests_in_order_witness :
  exists es r,
    extract_data silent_api "ccg" ["03Q"; "15N"] ["0407010H0"; "0212000AA"] []
    = ([] ++ es, r)
    /\ List.filter is_request es
       = map (fun num_id => Requests_get (name_url num_id))
             ["0407010H0"; "0212000AA"]
         ++ flat_map
              (fun org_id =>
                 map (fun num_id =>
                        Requests_get (spending_url num_id org_id "ccg"))
                     ["0407010H0"; "0212000AA"])
              ["03Q"; "15N"].
Proof.
  apply (extract_data_requests_in_order silent_api "ccg" ["03Q"; "15N"]
           ["0407010H0"; "0212000AA"] []).
  - intros t url. exists []. reflexivity.
  - vm_compute. lia.
Defined.

(** X2. With a service that answers and a budget within the ceiling,
    the run ends on the message of the branch without data exactly when
    no spending call was planned (no organisation or no product); with
    both present it never writes that message, and a run that ends
    normally ends with the table followed by the link to that table. *)
Theorem extract_data_no_data_iff
    (api : trace -> string -> option (list record))
    (org : string) (org_ids num_ids : list string) (t : trace) :
  answers api ->
  calculate_api_calls org_ids num_ids <= API_CALL_LIMIT ->
  exists es r,
    extract_data api org org_ids num_ids t = (t ++ es, r)
    /\ (existsb is_no_data_message es = true <-> org_ids = [] \/ num_ids = [])
    /\ (org_ids = [] \/ num_ids = [] ->
        r = Ok tt
        /\ last es = Some (St_write [Lit "No data returned from API calls."])
        /\ existsb is_table_output es = false)
    /\ (org_ids <> [] -> num_ids <> [] -> r = Ok tt ->
        exists final_df es0,
          es = es0 ++ [St_dataframe final_df; St_download_link final_df]).
Proof.
  intros Hanswers Hbudget.
  destruct (extract_data_within_budget api org org_ids num_ids t Hanswers Hbudget)
    as (es & r & Hrun & _ & Hnodata & _).
  destruct (extract_data_any_service api org org_ids num_ids t Hbudget)
    as (es' & r' & Hrun' & Hshape).
  rewrite Hrun in Hrun'. apply run_emitted_unique in Hrun'.
  destruct Hrun' as [<- <-].
  exists es, r. split; [exact Hrun | ]. split; [exact Hnodata | ].
  destruct Hshape
    as [(-> & _ & _ & Htab & Hmsg)
       | (_ & es0 & es3 & -> & Htab0 & Hmsg0 & Hcases)].
  - split.
    + intros Hempty. apply Hnodata in Hempty. congruence.
    + intros _ _ [=].
  - rewrite existsb_app, Hmsg0 in Hnodata. cbn [orb] in Hnodata.
    destruct Hcases as [(-> & ->) | [(df & -> & ->) | (-> & ->)]].
    + split.
      * intros _. split; [reflexivity | ]. split; [apply last_snoc | ].
        now rewrite existsb_app, Htab0.
      * intros Horg Hnum _. exfalso.
        assert (H : org_ids = [] \/ num_ids = []) by now apply Hnodata.
        tauto.
    + split.
      * intros Hempty. apply Hnodata in Hempty. discriminate.
      * intros _ _ _. now exists df, es0.
    + split.
      * intros Hempty. apply Hnodata in Hempty. discriminate.
      * intros _ _ [=].
Qed.

Lemma extract_data_no_data_iff_witness :
  exists es r,
    extract_data silent_api "ccg" ["03Q"] ["0407010H0"] [] = ([] ++ es, r)
    /\ (existsb is_no_data_message es = true
        <-> ["03Q"] = [] \/ ["0407010H0"] = [])
    /\ (["03Q"] = [] \/ ["0407010H0"] = [] ->
        r = Ok tt
        /\ last es = Some (St_write [Lit "No data returned from API calls."])
        /\ existsb is_table_output es = false)
    /\ (["03Q"] <> [] -> ["0407010H0"] <> [] -> r = Ok tt ->
        exists final_df es0,
          es = es0 ++ [St_dataframe final_df; St_download_link final_df]).
Proof.
  apply (extract_data_no_data_iff silent_api "ccg" ["03Q"] ["0407010H0"] []).
  - intros t url. exists []. reflexivity.
  - vm_compute. lia.
Defined.

(** X3. Whatever the service does, a run within the budget makes its
    requests in the planned order and never one that was not planned. If
    a request raises, the run ends there: that request is the last event.
    A run that ends with an exception has shown no table, offered no
    export and not written the message of the branch without data. *)
Theorem extract_data_stops_on_fault
    (api : trace -> string -> option (list record))
    (org : string) (org_ids num_ids : list string) (t : trace) :
  calculate_api_calls org_ids num_ids <= API_CALL_LIMIT ->
  exists es r,
    extract_data api org org_ids num_ids t = (t ++ es, r)
    /\ (exists rest,
           planned_requests org org_ids num_ids
           = List.filter is_request es ++ rest)
    /\ (r = Raise RequestFault -> exists url, last es = Some (Requests_get url))
    /\ (r <> Ok tt ->
        existsb is_table_output es = false
        /\ existsb is_no_data_message es = false).
Proof.
  intros Hbudget.
  destruct (extract_data_any_service api org org_ids num_ids t Hbudget)
    as (es & r & Hrun & Hshape).
  exists es, r. split; [exact Hrun | ].
  destruct Hshape
    as [(-> & Hprefix & Hlast & Htab & Hmsg)
       | (Hreqs & es0 & es3 & -> & Htab0 & Hmsg0 & Hcases)].
  - split; [exact Hprefix | ]. split; [intros _; exact Hlast | ].
    intros _. now split.
  - split; [exists []; now rewrite app_nil_r | ].
    destruct Hcases as [(-> & ->) | [(df & -> & ->) | (-> & ->)]].
    + split; [discriminate | ]. intros H. now contradict H.
    + split; [discriminate | ]. intros H. now contradict H.
    + split; [discriminate | ]. intros _. rewrite app_nil_r. now split.
Qed.

Lemma extract_data_stops_on_fault_witness :
  exists es r,
    extract_data (fun _ _ => None) "ccg" ["03Q"] ["0407010H0"] [] = ([] ++ es, r)
    /\ (exists rest,
           planned_requests "ccg" ["03Q"] ["0407010H0"]
           = List.filter is_request es ++ rest)
    /\ (r = Raise RequestFault -> exists url, last es = Some (Requests_get url))
    /\ (r <> Ok tt ->
        existsb is_table_output es = false
        /\ existsb is_no_data_message es = false).
Proof.
  apply (extract_data_stops_on_fault (fun _ _ => None) "ccg" ["03Q"]
           ["0407010H0"] []).
  vm_compute. lia.
Defined.

(** X4. In every run within the budget the table is shown at most once,
    as the last thing but one, and the link that follows it exports that
    very table; nothing is shown or exported before. *)
Theorem extract_data_exports_shown_table
    (api : trace -> string -> option (list record))
    (org : string) (org_ids num_ids : list string) (t : trace) :
  calculate_api_calls org_ids num_ids <= API_CALL_LIMIT ->
  exists es r,
    extract_data api org org_ids num_ids t = (t ++ es, r)
    /\ (existsb is_table_output es = false
        \/ exists final_df es0,
            es = es0 ++ [St_dataframe final_df; St_download_link final_df]
            /\ existsb is_table_output es0 = false
            /\ r = Ok tt).
Proof.
  intros Hbudget.
  destruct (extract_data_any_service api org org_ids num_ids t Hbudget)
    as (es & r & Hrun & Hshape).
  exists es, r. split; [exact Hrun | ].
  destruct Hshape
    as [(_ & _ & _ & Htab & _)
       | (_ & es0 & es3 & -> & Htab0 & _ & Hcases)]; [now left | ].
  destruct Hcases as [(-> & _) | [(df & -> & ->) | (-> & _)]].
  - left. now rewrite existsb_app, Htab0.
  - right. now exists df, es0.
  - left. now rewrite app_nil_r.
Qed.

Lemma extract_data_exports_shown_table_witness :
  exists es r,
    extract_data silent_api "ccg" ["03Q"] ["0407010H0"] [] = ([] ++ es, r)
    /\ (existsb is_table_output es = false
        \/ exists final_df es0,
            es = es0 ++ [St_dataframe final_df; St_download_link final_df]
            /\ existsb is_table_output es0 = false
            /\ r = Ok tt).
Proof.
  apply (extract_data_exports_shown_table silent_api "ccg" ["03Q"]
           ["0407010H0"] []).
  vm_compute. lia.
Defined.


(** ** The progress reports *)

Lemma percent_checked_table :
  forallb (fun total => forallb (fun count => percent_checked count total)
                                (seq 1 total))
          (seq 1 API_CALL_LIMIT) = true.
Proof. vm_compute. reflexivity. Qed.

Lemma percent_checked_within_budget (call_count total_calls : nat) :
  1 <= call_count -> call_count <= total_calls ->
  total_calls <= API_CALL_LIMIT ->
  percent_checked call_count total_calls = true.
Proof.
  intros Hone Hle Hlimit. pose proof percent_checked_table as Htable.
  rewrite forallb_forall in Htable.
  specialize (Htable total_calls). rewrite forallb_forall in Htable.
  apply Htable; apply in_seq; lia.
Qed.

(** X5. For every call a run within the budget can make, the reported
    percentage is defined and is the exact percentage rounded down, or
    one point below it (the floating-point product can fall just short of
    a whole number); at the last call it is 100. *)
Theorem percent_accuracy (call_count total_calls : nat) :
  1 <= call_count -> call_count <= total_calls ->
  total_calls <= API_CALL_LIMIT ->
  exists n,
    Progress.percent call_count total_calls = Ok n
    /\ (100 * Z.of_nat call_count / Z.of_nat total_calls - 1 <= n
        <= 100 * Z.of_nat call_count / Z.of_nat total_calls)%Z
    /\ (0 <= n <= 100)%Z
    /\ (call_count = total_calls -> n = 100%Z).
Proof.
  intros Hone Hle Hlimit.
  pose proof (percent_checked_within_budget _ _ Hone Hle Hlimit) as Hchecked.
  destruct (percent_within_budget _ _ Hone Hle Hlimit) as (n & Hn & Hrange).
  unfold percent_checked in Hchecked. rewrite Hn in Hchecked.
  destruct (Progress.percent (call_count - 1) total_calls) as [before | ];
    [ | discriminate].
  exists n. split; [exact Hn | ].
  apply andb_true_iff in Hchecked. destruct Hchecked as [Hchecked _].
  apply andb_true_iff in Hchecked. destruct Hchecked as [Hchecked Hlast].
  apply andb_true_iff in Hchecked. destruct Hchecked as [Hlow Hhigh].
  split; [lia | ]. split; [exact Hrange | ].
  intros ->. rewrite Nat.eqb_refl in Hlast. lia.
Qed.

Lemma percent_accuracy_witness :
  exists n,
    Progress.percent 29 100 = Ok n
    /\ (100 * Z.of_nat 29 / Z.of_nat 100 - 1 <= n
        <= 100 * Z.of_nat 29 / Z.of_nat 100)%Z
    /\ (0 <= n <= 100)%Z
    /\ (29 = 100 -> n = 100%Z).
Proof.
  apply (percent_accuracy 29 100); [lia | lia | vm_compute; lia].
Defined.

(** X6. Within the budget the reported percentage never goes down from
    one call to a later one. *)
Theorem percent_monotone (call_count later total_calls : nat) :
  1 <= call_count -> call_count <= later -> later <= total_calls ->
  total_calls <= API_CALL_LIMIT ->
  exists n n',
    Progress.percent call_count total_calls = Ok n
    /\ Progress.percent later total_calls = Ok n'
    /\ (n <= n')%Z.
Proof.
  intros Hone Hle Hlater Hlimit.
  induction Hle as [ | later Hle IH].
  - destruct (percent_within_budget call_count total_calls) as (n & Hn & _);
      [lia .. | ].
    exists n, n. repeat split; [assumption .. | lia].
  - destruct IH as (n & n' & Hn & Hn' & Hnn'); [lia | ].
    pose proof (percent_checked_within_budget (S later) total_calls) as Hchecked.
    unfold percent_checked in Hchecked.
    replace (S later - 1) with later in Hchecked by lia. rewrite Hn' in Hchecked.
    destruct (Progress.percent (S later) total_calls) as [n'' | ];
      [ | discriminate Hchecked; lia].
    exists n, n''. split; [exact Hn | ]. split; [reflexivity | ].
    assert (H : (n' <=? n'')%Z = true).
    { specialize (Hchecked ltac:(lia) Hlater Hlimit).
      apply andb_true_iff in Hchecked. tauto. }
    lia.
Qed.

Lemma percent_monotone_witness :
  exists n n',
    Progress.percent 28 100 = Ok n
    /\ Progress.percent 29 100 = Ok n'
    /\ (n <= n')%Z.
Proof.
  apply (percent_monotone 28 29 100); [lia | lia | lia | vm_compute; lia].
Defined.


(** ** Outcomes *)





(** ** The button handler, on supported requests *)


Section HandlerRuns.

Variable api : trace -> string -> option (list record).

(** After the three extraction lines the handler either reports and
    stops, or announces the codes that look mixed and calls
    [extract_data]. *)
Lemma handle_query_cases (query_components : gmap string (list string))
    (t : trace) :
  values_not_nil query_components ->
  exists org org_ids num_ids,
    get_org query_components = Ok org
    /\ get_ids "orgIds" query_components = Ok org_ids
    /\ get_ids "numIds" query_components = Ok num_ids
    /\ (((has_key "denomIds" query_components = true \/ org_ids = [])
         /\ exists es,
             handle_query api query_components t = (t ++ es, Ok tt)
             /\ es <> [])
        \/ (has_key "denomIds" query_components = false
            /\ org_ids <> []
            /\ handle_query api query_components t
               = extract_data api org org_ids num_ids
                   (t ++ (if check_for_mixed_code_types num_ids
                          then [St_warning mixed_codes_warning] else [])
                      ++ [Call_extract_data org org_ids num_ids]))).
Proof.
  intros Hvalues.
  destruct (get_org_ok _ Hvalues) as [org Horg].
  destruct (get_ids_ok "orgIds" _ Hvalues) as (org_ids & Horg_ids & _).
  destruct (get_ids_ok "numIds" _ Hvalues) as (num_ids & Hnum_ids & _).
  exists org, org_ids, num_ids. repeat (split; [assumption | ]).
  unfold handle_query.
  rewrite Horg, bind_lift_ok, Horg_ids, bind_lift_ok, Hnum_ids, bind_lift_ok.
  destruct (has_key "denomIds" query_components) eqn:Hdenom.
  - left. split; [now left | ].
    destruct org_ids as [ | org_id org_ids].
    + eexists. split.
      { unfold bind, emit, ret. cbn. rewrite <- app_assoc. reflexivity. }
      discriminate.
    + destruct (check_for_mixed_code_types num_ids).
      * eexists. split.
        { unfold bind, emit, ret. cbn. rewrite <- app_assoc. reflexivity. }
        discriminate.
      * eexists. split.
        { unfold bind, emit, ret. cbn. reflexivity. }
        discriminate.
  - destruct org_ids as [ | org_id org_ids].
    + left. split; [now right | ]. eexists. split.
      { unfold bind, emit, ret. cbn. reflexivity. }
      discriminate.
    + right. split; [reflexivity | ]. split; [discriminate | ].
      destruct (check_for_mixed_code_types num_ids).
      * unfold bind at 1. unfold ret at 1. unfold bind at 1.
        unfold bind at 1. rewrite emit_run. unfold ret at 1.
        cbn [negb]. rewrite bind_emit. unfold mixed_codes_warning.
        now rewrite <- app_assoc.
      * unfold bind at 1. unfold ret at 1. unfold bind at 1.
        unfold bind at 1. unfold ret at 1, ret at 1.
        cbn [negb]. rewrite bind_emit. reflexivity.
Qed.

End HandlerRuns.


Section HandlerOutcomes.

Variable api : trace -> string -> option (list record).
Variable check_bracketed_netloc : string -> bool.
Variable check_nfkc_netloc : string -> bool.
Variable unquote_escaped : string -> string.

(** X8. A URL that decodes to query components without [denomIds] and
    with [orgIds] makes the handler call [extract_data] with the decoded
    organisation type, organisations and products; the warning about
    mixed codes, when it is due, comes first and does not stop the
    run. *)
Theorem on_button_starts_run (url : string)
    (query_components : gmap string (list string)) (t : trace) :
  url <> EmptyString ->
  parse_url check_bracketed_netloc check_nfkc_netloc unquote_escaped url
  = Ok query_components ->
  has_key "denomIds" query_components = false ->
  has_key "orgIds" query_components = true ->
  exists org org_ids num_ids,
    get_org query_components = Ok org
    /\ get_ids "orgIds" query_components = Ok org_ids
    /\ get_ids "numIds" query_components = Ok num_ids
    /\ org_ids <> []
    /\ on_button api check_bracketed_netloc check_nfkc_netloc unquote_escaped
                 url t
       = extract_data api org org_ids num_ids
           (t ++ (if check_for_mixed_code_types num_ids
                  then [St_warning mixed_codes_warning] else [])
              ++ [Call_extract_data org org_ids num_ids]).
Proof.
  intros Hurl Hparse Hdenom Horgs.
  pose proof (parse_url_values _ _ _ _ _ Hparse) as Hvalues.
  destruct (handle_query_cases api query_components t Hvalues)
    as (org & org_ids & num_ids & Horg & Horg_ids & Hnum_ids & Hcases).
  destruct (get_ids_ok "orgIds" _ Hvalues) as (org_ids' & Horg_ids' & Hempty).
  assert (org_ids' = org_ids) by congruence. subst org_ids'.
  exists org, org_ids, num_ids. repeat (split; [assumption | ]).
  assert (Hnonempty : org_ids <> []).
  { intros Hnil. apply Hempty in Hnil. congruence. }
  split; [exact Hnonempty | ].
  unfold on_button. destruct url as [ | c url]; [congruence | ].
  rewrite Hparse, bind_lift_ok.
  destruct Hcases as [([Hbad | Hbad] & _) | (_ & _ & Hrun)];
    [congruence | contradiction | exact Hrun].
Qed.


End HandlerOutcomes.

Lemma on_button_starts_run_witness :
  exists org org_ids num_ids,
    get_org (<["numIds" := ["0407010H0,0212000AA"]]>
               (<["orgIds" := ["03Q,15N"]]> (<["org" := ["CCG"]]> ∅)))
    = Ok org
    /\ get_ids "orgIds"
         (<["numIds" := ["0407010H0,0212000AA"]]>
            (<["orgIds" := ["03Q,15N"]]> (<["org" := ["CCG"]]> ∅)))
       = Ok org_ids
    /\ get_ids "numIds"
         (<["numIds" := ["0407010H0,0212000AA"]]>
            (<["orgIds" := ["03Q,15N"]]> (<["org" := ["CCG"]]> ∅)))
       = Ok num_ids
    /\ org_ids <> []
    /\ on_button silent_api accept_netloc accept_netloc leave_escapes
         "https://openprescribing.net/analyse/#org=CCG&orgIds=03Q,15N&numIds=0407010H0,0212000AA"
         []
       = extract_data silent_api org org_ids num_ids
           ([] ++ (if check_for_mixed_code_types num_ids
                   then [St_warning mixed_codes_warning] else [])
               ++ [Call_extract_data org org_ids num_ids]).
Proof.
  apply (on_button_starts_run silent_api accept_netloc accept_netloc
           leave_escapes
           "https://openprescribing.net/analyse/#org=CCG&orgIds=03Q,15N&numIds=0407010H0,0212000AA"
           (<["numIds" := ["0407010H0,0212000AA"]]>
              (<["orgIds" := ["03Q,15N"]]> (<["org" := ["CCG"]]> ∅)))
           []).
  - discriminate.
  - vm_compute. reflexivity.
  - vm_compute. reflexivity.
  - vm_compute. reflexivity.
Defined.


(** ** Reading the query components *)

Lemma parse_qs_add_lookup (d : gmap string (list string))
    (pair : string * string) (k : string) :
  parse_qs_add d pair !! k
  = match d !! k, values_of k [pair] with
    | Some vs, more => Some (vs ++ more)
    | None, [] => None
    | None, more => Some more
    end.
Proof.
  destruct pair as [name value]. unfold parse_qs_add, values_of.
  cbn [List.filter fst map snd].
  destruct (String.eqb_spec name k) as [-> | Hne].
  - destruct (d !! k) as [vs | ]; now rewrite lookup_insert_eq.
  - destruct (d !! name) as [vs | ]; rewrite lookup_insert_ne by assumption;
      destruct (d !! k); now rewrite ?app_nil_r.
Qed.

Lemma fold_parse_qs_add_lookup (pairs : list (string * string))
    (d : gmap string (list string)) (k : string) :
  fold_left parse_qs_add pairs d !! k
  = match d !! k, values_of k pairs with
    | Some vs, more => Some (vs ++ more)
    | None, [] => None
    | None, more => Some more
    end.
Proof.
  revert d. induction pairs as [ | pair pairs IH]; intros d.
  - cbn. destruct (d !! k); now rewrite ?app_nil_r.
  - cbn [fold_left]. rewrite IH, parse_qs_add_lookup.
    unfold values_of. cbn [List.filter].
    destruct (String.eqb (fst pair) k); cbn [map];
      destruct (d !! k) as [vs | ]; cbn [app];
      rewrite ?app_nil_r, <- ?app_assoc; reflexivity.
Qed.

Section FirstValue.

Variable unquote_escaped : string -> string.

(** X10. A key given several times in the fragment keeps all its values
    in [parse_qs], in order; the handler reads the first one only: the
    identifiers are the comma-separated parts of the first value, and
    there are none exactly when the key has no (non-blank) value. *)
Theorem get_ids_first_value (qs key : string) :
  parse_qs unquote_escaped qs !! key
  = match values_of key (parse_qsl unquote_escaped qs) with
    | [] => None
    | values => Some values
    end
  /\ get_ids key (parse_qs unquote_escaped qs)
     = Ok match values_of key (parse_qsl unquote_escaped qs) with
          | first :: _ => Str.split "," first
          | [] => []
          end.
Proof.
  assert (Hlookup : parse_qs unquote_escaped qs !! key
                    = match values_of key (parse_qsl unquote_escaped qs) with
                      | [] => None
                      | values => Some values
                      end).
  { unfold parse_qs. rewrite fold_parse_qs_add_lookup, lookup_empty.
    reflexivity. }
  split; [exact Hlookup | ].
  unfold get_ids. rewrite Hlookup.
  now destruct (values_of key (parse_qsl unquote_escaped qs)).
Qed.

End FirstValue.


(** ** URLs without a fragment *)

Lemma contains_lstrip (c : ascii) (strip : ascii -> bool) (s : string) :
  Str.contains c s = false -> Str.contains c (Str.lstrip strip s) = false.
Proof.
  induction s as [ | d s IH]; [trivial | ].
  cbn [Str.lstrip]. destruct (strip d); [ | trivial].
  cbn [Str.contains]. intros [_ Hs]%orb_false_iff. now apply IH.
Qed.

Lemma contains_remove (c old : ascii) (s : string) :
  Str.contains c s = false -> Str.contains c (Str.remove old s) = false.
Proof.
  induction s as [ | d s IH]; [trivial | ].
  cbn [Str.contains Str.remove]. intros [Hd Hs]%orb_false_iff.
  destruct (Ascii.eqb d old); [now apply IH | ].
  cbn [Str.contains]. now rewrite Hd, IH.
Qed.

Lemma contains_split_once (c sep : ascii) (s before after : string) :
  Str.split_once sep s = Some (before, after) ->
  Str.contains c s = false -> Str.contains c after = false.
Proof.
  revert before. induction s as [ | d s IH]; intros before; [discriminate | ].
  cbn [Str.split_once Str.contains]. intros Hsplit [_ Hs]%orb_false_iff.
  destruct (Ascii.eqb d sep); [now injection Hsplit as _ <- | ].
  destruct (Str.split_once sep s) as [[b a] | ]; [ | discriminate].
  injection Hsplit as _ <-. now apply (IH b).
Qed.

Lemma contains_break (c : ascii) (stop : ascii -> bool) (s : string) :
  Str.contains c s = false -> Str.contains c (snd (Str.break stop s)) = false.
Proof.
  induction s as [ | d s IH]; [trivial | ].
  cbn [Str.break]. destruct (stop d); [trivial | ].
  cbn [Str.contains]. intros [_ Hs]%orb_false_iff.
  destruct (Str.break stop s) as [before after]. now apply IH.
Qed.

Lemma split_once_absent (sep : ascii) (s : string) :
  Str.contains sep s = false -> Str.split_once sep s = None.
Proof.
  induction s as [ | d s IH]; [trivial | ].
  cbn [Str.contains Str.split_once]. intros [Hd Hs]%orb_false_iff.
  now rewrite Hd, IH.
Qed.

Lemma contains_drop_scheme (c : ascii) (url : string) :
  Str.contains c url = false -> Str.contains c (drop_scheme url) = false.
Proof.
  intros Hurl. unfold drop_scheme.
  destruct url as [ | c0 rest]; [trivial | ].
  destruct (Str.split_once ":" (String c0 rest)) as [[before after] | ] eqn:Hsplit;
    [ | trivial].
  destruct before as [ | b before]; [trivial | ].
  match goal with |- context [if ?cond then _ else _] => destruct cond end;
    [ | trivial].
  now apply (contains_split_once c ":" _ _ _ Hsplit).
Qed.

Section NoFragment.

Variable api : trace -> string -> option (list record).
Variable check_bracketed_netloc : string -> bool.
Variable check_nfkc_netloc : string -> bool.
Variable unquote_escaped : string -> string.

Lemma urlparse_fragment_absent (url fragment : string) :
  Str.contains "#" url = false ->
  urlparse_fragment check_bracketed_netloc check_nfkc_netloc url = Ok fragment ->
  fragment = EmptyString.
Proof.
  intros Hurl. unfold urlparse_fragment.
  set (cleaned := drop_scheme
                    (Str.remove "010"
                       (Str.remove "013"
                          (Str.remove "009"
                             (Str.lstrip c0_control_or_space url))))).
  assert (Hcleaned : Str.contains "#" cleaned = false).
  { subst cleaned. apply contains_drop_scheme.
    do 3 apply contains_remove. now apply contains_lstrip. }
  clearbody cleaned.
  assert (Hrest : Str.contains "#"
                    (snd (match cleaned with
                          | String "/" (String "/" rest) => splitnetloc rest
                          | _ => (EmptyString, cleaned)
                          end)) = false).
  { destruct cleaned as [ | a cleaned']; [exact Hcleaned | ].
    destruct a as [[] [] [] [] [] [] [] []]; try exact Hcleaned.
    destruct cleaned' as [ | b rest]; [exact Hcleaned | ].
    destruct b as [[] [] [] [] [] [] [] []]; try exact Hcleaned.
    unfold splitnetloc. apply contains_break.
    cbn [Str.contains] in Hcleaned.
    apply orb_false_iff in Hcleaned. destruct Hcleaned as [_ Hcleaned].
    apply orb_false_iff in Hcleaned. tauto. }
  destruct (match cleaned with
            | String "/" (String "/" rest) => splitnetloc rest
            | _ => (EmptyString, cleaned)
            end) as [netloc rest].
  cbn [snd] in Hrest. rewrite (split_once_absent _ _ Hrest).
  repeat match goal with
         | |- context [if ?cond then _ else _] => destruct cond
         end; congruence.
Qed.

(** X11. A URL without [#], once [urlparse] accepts it, decodes to
    the empty mapping; the handler then reports the missing organisation
    and does nothing else: no request, no call of [extract_data]. *)
Theorem on_button_without_fragment (url : string)
    (query_components : gmap string (list string)) (t : trace) :
  url <> EmptyString ->
  Str.contains "#" url = false ->
  parse_url check_bracketed_netloc check_nfkc_netloc unquote_escaped url
  = Ok query_components ->
  query_components = ∅
  /\ on_button api check_bracketed_netloc check_nfkc_netloc unquote_escaped
               url t
     = (t ++ [St_error "Queries without organisation(s) are not currently supported. Please select an organisation and try again."],
        Ok tt).
Proof.
  intros Hurl Hhash Hparse.
  assert (Hempty : query_components = ∅).
  { unfold parse_url in Hparse.
    destruct (urlparse_fragment check_bracketed_netloc check_nfkc_netloc url)
      as [fragment | ] eqn:Hfragment; [ | discriminate].
    apply (urlparse_fragment_absent _ _ Hhash) in Hfragment. subst fragment.
    now injection Hparse as <-. }
  split; [exact Hempty | ].
  unfold on_button. destruct url as [ | c url]; [congruence | ].
  rewrite Hparse, bind_lift_ok. subst query_components. reflexivity.
Qed.

End NoFragment.

Lemma on_button_without_fragment_witness :
  (∅ : gmap string (list string)) = ∅
  /\ on_button silent_api accept_netloc accept_netloc leave_escapes
       "https://openprescribing.net/analyse/" []
     = ([] ++ [St_error "Queries without organisation(s) are not currently supported. Please select an organisation and try again."],
        Ok tt).
Proof.
  apply (on_button_without_fragment silent_api accept_netloc accept_netloc
           leave_escapes "https://openprescribing.net/analyse/" ∅ []).
  - discriminate.
  - vm_compute. reflexivity.
  - vm_compute. reflexivity.
Defined.


(** ** Lists of identifiers *)

Lemma split_concat (sep : ascii) (s : string) :
  String.concat (String sep EmptyString) (Str.split sep s) = s.
Proof.
  induction s as [ | c s IH]; [reflexivity | ].
  cbn [Str.split]. destruct (Ascii.eqb_spec c sep) as [-> | Hne].
  - destruct (Str.split sep s) as [ | hd tl] eqn:Hsplit.
    + now apply split_not_nil in Hsplit.
    + cbn [String.concat]. cbn [String.concat] in IH. now rewrite IH.
  - destruct (Str.split sep s) as [ | hd tl] eqn:Hsplit.
    + now apply split_not_nil in Hsplit.
    + cbn [String.concat] in IH |- *. destruct tl; cbn; now rewrite <- IH.
Qed.

Lemma split_parts (sep : ascii) (s : string) :
  Forall (fun part => Str.contains sep part = false) (Str.split sep s).
Proof.
  induction s as [ | c s IH]; [repeat constructor | ].
  cbn [Str.split]. destruct (Ascii.eqb c sep) eqn:Hc.
  - constructor; [reflexivity | exact IH].
  - destruct (Str.split sep s) as [ | hd tl]; [repeat constructor; cbn; now rewrite Hc | ].
    apply Forall_cons in IH. destruct IH as [Hhd Htl].
    constructor; [ | exact Htl]. cbn [Str.contains]. now rewrite Hc, Hhd.
Qed.

(** X12. When the query components have the key, the identifiers read
    for it are the parts of its first value between the commas: there is
    at least one, none contains a comma, and joined with commas they give
    the value back, so that an empty part (two commas in a row, a comma at
    the end) is an identifier too. *)
Theorem get_ids_parts (key : string)
    (query_components : gmap string (list string))
    (first : string) (others : list string) :
  query_components !! key = Some (first :: others) ->
  exists ids,
    get_ids key query_components = Ok ids
    /\ ids <> []
    /\ Forall (fun id => Str.contains "," id = false) ids
    /\ String.concat "," ids = first.
Proof.
  intros Hkey. exists (Str.split "," first). unfold get_ids. rewrite Hkey.
  split; [reflexivity | ]. split; [apply split_not_nil | ].
  split; [apply split_parts | apply split_concat].
Qed.

Lemma get_ids_parts_witness :
  exists ids,
    get_ids "orgIds" (<["orgIds" := ["03Q,,15N,"]]> ∅) = Ok ids
    /\ ids <> []
    /\ Forall (fun id => Str.contains "," id = false) ids
    /\ String.concat "," ids = "03Q,,15N,".
Proof.
  apply (get_ids_parts "orgIds" (<["orgIds" := ["03Q,,15N,"]]> ∅)
           "03Q,,15N," []).
  vm_compute. reflexivity.
Defined.

(** ** The budget *)

(** X13. A request that passes the gate with at least one product has
    at most 100 products and at most 99 organisations, and at most 50
    products as soon as it has an organisation. *)
Theorem budget_bounds (org_ids num_ids : list string) :
  calculate_api_calls org_ids num_ids <= API_CALL_LIMIT ->
  num_ids <> [] ->
  length num_ids <= 100
  /\ length org_ids <= 99
  /\ (org_ids <> [] -> length num_ids <= 50).
Proof.
  unfold calculate_api_calls, API_CALL_LIMIT. intros Hbudget Hnum.
  destruct num_ids as [ | num_id num_ids]; [congruence | ].
  cbn [length] in *. split; [lia | ]. split; [nia | ].
  intros Horg. destruct org_ids as [ | org_id org_ids]; [congruence | ].
  cbn [length] in *. nia.
Qed.

Lemma budget_bounds_witness :
  length ["0407010H0"] <= 100
  /\ length (repeat "03Q" 99) <= 99
  /\ (repeat "03Q" 99 <> [] -> length ["0407010H0"] <= 50).
Proof.
  apply (budget_bounds (repeat "03Q" 99) ["0407010H0"]).
  - vm_compute. lia.
  - discriminate.
Defined.

(** ** The code-type heuristic, again *)

Lemma existsb_Permutation {A} (p : A -> bool) (l l' : list A) :
  Permutation l l' -> existsb p l = existsb p l'.
Proof.
  induction 1 as [ | x l l' _ IH | x y l | l l' l'' _ IH1 _ IH2]; cbn.
  - reflexivity.
  - now rewrite IH.
  - now destruct (p x), (p y).
  - now rewrite IH1.
Qed.

(** X14. The answer of the checker depends neither on the order of the
    codes nor on their repetition: two sequences that are permutations of
    one another get the same answer, and so do a sequence and the same
    sequence given twice. *)
Theorem check_for_mixed_code_types_order (codes codes' : list string) :
  Permutation codes codes' ->
  check_for_mixed_code_types codes = check_for_mixed_code_types codes'
  /\ check_for_mixed_code_types (codes ++ codes)
     = check_for_mixed_code_types codes.
Proof.
  intros Hperm. rewrite !check_for_mixed_code_types_existsb. split.
  - now rewrite (existsb_Permutation _ _ _ Hperm),
      (existsb_Permutation is_shorter_length _ _ Hperm).
  - rewrite !existsb_app.
    now destruct (existsb is_vmp_length codes),
      (existsb is_shorter_length codes).
Qed.

Lemma check_for_mixed_code_types_order_witness :
  check_for_mixed_code_types ["0407010H0AAAMAM"; "0407010H0"]
  = check_for_mixed_code_types ["0407010H0"; "0407010H0AAAMAM"]
  /\ check_for_mixed_code_types
       (["0407010H0AAAMAM"; "0407010H0"] ++ ["0407010H0AAAMAM"; "0407010H0"])
     = check_for_mixed_code_types ["0407010H0AAAMAM"; "0407010H0"].
Proof.
  apply (check_for_mixed_code_types_order ["0407010H0AAAMAM"; "0407010H0"]
           ["0407010H0"; "0407010H0AAAMAM"]).
  apply perm_swap.
Defined.


(** ** Frames *)

Lemma index_lt (label : string) (labels : list string) (i : nat) :
  Pandas.index label labels = Some i ->
  i < length labels /\ nth i labels EmptyString = label.
Proof.
  revert i. induction labels as [ | l labels IH]; intros i; [discriminate | ].
  cbn [Pandas.index]. destruct (String.eqb_spec l label) as [-> | Hne].
  - intros [= <-]. cbn. split; [lia | reflexivity].
  - destruct (Pandas.index label labels) as [j | ]; [ | discriminate].
    intros [= <-]. destruct (IH j eq_refl) as [Hlt Hnth].
    cbn. split; [lia | exact Hnth].
Qed.

Lemma index_None (label : string) (labels : list string) :
  Pandas.index label labels = None <-> Pandas.has_label label labels = false.
Proof.
  pose proof (index_has_label label labels) as H.
  destruct (Pandas.has_label label labels), (Pandas.index label labels);
    split; try reflexivity; try discriminate; intros _.
  - destruct (proj1 H eq_refl); discriminate.
  - assert (false = true) by (apply H; eauto). discriminate.
Qed.

Lemma index_app_new (label : string) (labels : list string) :
  Pandas.index label labels = None ->
  Pandas.index label (labels ++ [label]) = Some (length labels).
Proof.
  induction labels as [ | l labels IH]; cbn [Pandas.index app length].
  - now rewrite String.eqb_refl.
  - destruct (String.eqb l label); [discriminate | ].
    destruct (Pandas.index label labels); [discriminate | ].
    intros _. now rewrite IH.
Qed.

Lemma of_records_rows (data : list record) :
  length (rows (Pandas.of_records data)) = length data
  /\ Forall (fun row => length row = length (columns (Pandas.of_records data)))
            (rows (Pandas.of_records data)).
Proof.
  unfold Pandas.of_records. cbn [rows columns]. split; [apply length_map | ].
  apply Forall_forall. intros row [r [<- _]]%list_elem_of_In%in_map_iff.
  apply length_map.
Qed.

(** X15. The frame built from the answer to a spending request has one
    row per record, every row has one cell per column, and after
    [df['num_id'] = num_id] every row carries the product of the request
    in the column [num_id], whether or not the records had a field of
    that name. *)
Theorem spending_frame_tagged (data : list record) (num_id : string) :
  let df := Pandas.setitem "num_id" (JString num_id) (Pandas.of_records data) in
  length (rows df) = length data
  /\ Forall (fun row => length row = length (columns df)
                        /\ row_num_id df row = Some num_id)
            (rows df).
Proof.
  cbv zeta. destruct (of_records_rows data) as [Hlen Hrows].
  unfold Pandas.setitem, row_num_id.
  destruct (Pandas.index "num_id" (columns (Pandas.of_records data)))
    as [i | ] eqn:Hi; cbn [rows columns].
  - rewrite length_map. split; [exact Hlen | ].
    rewrite Hi. apply Forall_forall.
    intros row [row0 [<- Hrow0]]%list_elem_of_In%in_map_iff.
    rewrite Forall_forall in Hrows.
    specialize (Hrows row0 (proj2 (list_elem_of_In _ _) Hrow0)).
    rewrite length_insert. split; [exact Hrows | ].
    destruct (index_lt _ _ _ Hi) as [Hlt _].
    rewrite (nth_lookup_Some _ _ NaN (Value (JString num_id))); [reflexivity | ].
    apply list_lookup_insert_eq. lia.
  - rewrite length_map. split; [exact Hlen | ].
    rewrite (index_app_new _ _ Hi). apply Forall_forall.
    intros row [row0 [<- Hrow0]]%list_elem_of_In%in_map_iff.
    rewrite Forall_forall in Hrows.
    specialize (Hrows row0 (proj2 (list_elem_of_In _ _) Hrow0)).
    rewrite !length_app. cbn [length]. split; [lia | ].
    rewrite <- Hrows, nth_middle. reflexivity.
Qed.


Lemma positions_from (labels : list string) (start : nat) (label : string) :
  NoDup labels ->
  map fst (List.filter (fun p => String.eqb (snd p) label)
                       (combine (seq start (length labels)) labels))
  = match Pandas.index label labels with
    | Some i => [start + i]
    | None => []
    end.
Proof.
  intros Hlabels. revert start.
  induction Hlabels as [ | l labels Hnotin Hlabels IH]; intros start;
    [reflexivity | ].
  cbn [length seq combine List.filter Pandas.index].
  change (snd (start, l)) with l.
  destruct (String.eqb_spec l label) as [-> | Hne]; cbn [map];
    rewrite (IH (S start)).
  - cbn [fst]. rewrite Nat.add_0_r.
    rewrite list_elem_of_In in Hnotin. apply has_label_false in Hnotin.
    apply index_None in Hnotin. now rewrite Hnotin.
  - destruct (Pandas.index label labels) as [i | ]; cbn [option_map];
      [ | reflexivity].
    now rewrite Nat.add_succ_r.
Qed.

Lemma positions_index (labels : list string) (label : string) (i : nat) :
  NoDup labels -> Pandas.index label labels = Some i ->
  Pandas.positions label labels = [i].
Proof.
  intros Hlabels Hi. unfold Pandas.positions.
  now rewrite (positions_from labels 0 label Hlabels), Hi.
Qed.

(** Asking a frame with distinct labels for labels it has. *)
Lemma getitem_distinct (df : DataFrame) (labels : list string) :
  NoDup (columns df) ->
  (forall l, In l labels -> In l (columns df)) ->
  Pandas.getitem labels df
  = Ok {| columns := labels;
          rows := map (fun row => map (fun l => cell_at df row l) labels)
                      (rows df) |}.
Proof.
  intros Hdistinct Hlabels. unfold Pandas.getitem.
  assert (Hall : forallb (fun l => Pandas.has_label l (columns df)) labels = true).
  { apply forallb_forall. intros l Hl. apply has_label_In. now apply Hlabels. }
  rewrite Hall.
  assert (Hpicked : forall (B : Type) (f : nat -> B) (g : string -> B),
             (forall l i, Pandas.index l (columns df) = Some i -> f i = g l) ->
             map f (flat_map (fun l => Pandas.positions l (columns df)) labels)
             = map g labels).
  { intros B f g Hfg. clear Hall.
    induction labels as [ | l labels IH]; [reflexivity | ].
    cbn [flat_map map]. rewrite map_app, IH by (intros; apply Hlabels; now right).
    assert (Hl : In l (columns df)) by (apply Hlabels; now left).
    apply has_label_In, index_has_label in Hl. destruct Hl as [i Hi].
    rewrite (positions_index _ _ _ Hdistinct Hi). cbn [map app].
    now rewrite (Hfg l i Hi). }
  f_equal. f_equal.
  - rewrite (Hpicked _ (fun i => nth i (columns df) EmptyString) (fun l => l));
      [apply List.map_id | ].
    intros l i Hi. now apply index_lt in Hi.
  - apply map_ext. intros row. apply Hpicked. intros l i Hi.
    unfold cell_at. now rewrite Hi.
Qed.

Lemma cell_at_selected (df : DataFrame) (labels : list string)
    (row : list cell) (label : string) :
  (In label labels <-> In label (columns df)) ->
  cell_at {| columns := labels; rows := [] |}
          (map (fun l => cell_at df row l) labels) label
  = cell_at df row label.
Proof.
  intros Hsame. unfold cell_at at 1. cbn [columns].
  destruct (Pandas.index label labels) as [j | ] eqn:Hj.
  - destruct (index_lt _ _ _ Hj) as [Hlt Hnth].
    rewrite (nth_indep _ NaN (cell_at df row EmptyString))
      by now rewrite length_map.
    now rewrite (map_nth (fun l => cell_at df row l)), Hnth.
  - apply index_None, has_label_false in Hj.
    assert (Hout : ~ In label (columns df)) by tauto.
    apply has_label_false, index_None in Hout.
    unfold cell_at. now rewrite Hout.
Qed.

(** X16. On a table with distinct column labels the selection
    [final_df[cols]] after the reordering succeeds; its columns are the
    reordered labels, it has the rows of the table in the same order, each
    with one cell per column, and every cell is still under its label:
    the reordering moves columns and loses or mixes up no value. *)
Theorem getitem_reordered_keeps_cells (df : DataFrame) :
  NoDup (columns df) ->
  exists final_df select,
    Pandas.getitem (reorder_columns (columns df)) df = Ok final_df
    /\ columns final_df = reorder_columns (columns df)
    /\ rows final_df = map select (rows df)
    /\ forall row,
         length (select row) = length (columns final_df)
         /\ forall label,
              cell_at final_df (select row) label = cell_at df row label.
Proof.
  intros Hdistinct.
  pose proof (fold_move_last_Permutation moved_columns (columns df)) as Hperm.
  fold (reorder_columns (columns df)) in Hperm.
  eexists _, (fun row => map (fun l => cell_at df row l)
                               (reorder_columns (columns df))).
  split; [ | split; [ | split]].
  - apply getitem_distinct; [exact Hdistinct | ].
    intros l Hl. now apply (Permutation_in l Hperm).
  - reflexivity.
  - reflexivity.
  - intros row. cbn [columns]. split; [apply length_map | ].
    intros label.
    apply (cell_at_selected df (reorder_columns (columns df)) row label).
    split; [apply (Permutation_in label Hperm) | ].
    apply (Permutation_in label). now symmetry.
Qed.

Lemma getitem_reordered_keeps_cells_witness :
  exists final_df select,
    Pandas.getitem
      (reorder_columns ["items"; "actual_cost"; "row_name"; "num_id"; "name"])
      {| columns := ["items"; "actual_cost"; "row_name"; "num_id"; "name"];
         rows := [[Value (JNumber "3"); Value (JNumber "1.5");
                   Value (JString "NHS DEVON"); Value (JString "0407010H0");
                   Value (JString "Tramadol")]] |}
    = Ok final_df
    /\ columns final_df
       = reorder_columns ["items"; "actual_cost"; "row_name"; "num_id"; "name"]
    /\ rows final_df
       = map select [[Value (JNumber "3"); Value (JNumber "1.5");
                      Value (JString "NHS DEVON"); Value (JString "0407010H0");
                      Value (JString "Tramadol")]]
    /\ forall row,
         length (select row) = length (columns final_df)
         /\ forall label,
              cell_at final_df (select row) label
              = cell_at
                  {| columns := ["items"; "actual_cost"; "row_name"; "num_id";
                                 "name"];
                     rows := [[Value (JNumber "3"); Value (JNumber "1.5");
                               Value (JString "NHS DEVON");
                               Value (JString "0407010H0");
                               Value (JString "Tramadol")]] |}
                  row label.
Proof.
  apply (getitem_reordered_keeps_cells
           {| columns := ["items"; "actual_cost"; "row_name"; "num_id"; "name"];
              rows := [[Value (JNumber "3"); Value (JNumber "1.5");
                        Value (JString "NHS DEVON"); Value (JString "0407010H0");
                        Value (JString "Tramadol")]] |}).
  apply (bool_decide_unpack _). vm_compute. reflexivity.
Defined.


(** ** The join with the names *)

Lemma new_duplicates_same (labels : list string) :
  Pandas.new_duplicates labels labels = false.
Proof.
  unfold Pandas.new_duplicates.
  induction (Pandas.duplicated labels) as [ | b bs IH]; [reflexivity | ].
  cbn. rewrite IH. now destruct b.
Qed.

Lemma filter_map_swap {A B} (p : B -> bool) (f : A -> B) (l : list A) :
  List.filter p (map f l) = map f (List.filter (fun a => p (f a)) l).
Proof.
  induction l as [ | a l IH]; [reflexivity | ].
  cbn. destruct (p (f a)); cbn; now rewrite IH.
Qed.

Lemma merge_left_names_rows (left merged : DataFrame)
    (names : list (string * json)) :
  names <> [] ->
  Pandas.merge_left "num_id" left
    (Pandas.of_records (map (fun p => name_record (fst p) (snd p)) names))
  = Ok merged ->
  exists i,
    Pandas.index "num_id" (columns left) = Some i
    /\ rows merged = flat_map (joined_rows names i) (rows left).
Proof.
  intros Hnames. rewrite of_records_names by assumption.
  unfold Pandas.merge_left. cbn [columns rows].
  destruct (Pandas.index "num_id" (columns left)) as [i | ] eqn:Hi;
    [ | discriminate].
  change (Pandas.index "num_id" ["num_id"; "name"]) with (Some 0).
  change (Pandas.without "num_id" ["num_id"; "name"]) with ["name"].
  cbv beta iota.
  match goal with |- (if ?c then _ else _) = _ -> _ => destruct c end;
    [discriminate | ].
  intros [= <-]. exists i. split; [reflexivity | ]. cbn [rows].
  apply flat_map_ext. intros lrow. unfold joined_rows.
  rewrite filter_map_swap. cbn [nth].
  destruct (List.filter _ names) as [ | p found]; [reflexivity | ].
  cbn [map]. rewrite map_map. reflexivity.
Qed.

Lemma filter_key_NoDup (names : list (string * json)) (c : cell) :
  NoDup (map fst names) ->
  length (List.filter (fun p => Pandas.same_key c (Value (JString (fst p))))
                      names) <= 1.
Proof.
  induction names as [ | p names IH]; [cbn; lia | ].
  cbn [map List.filter]. intros [Hnotin Hnames]%NoDup_cons.
  specialize (IH Hnames).
  destruct (Pandas.same_key c (Value (JString (fst p)))) eqn:Hkey; [ | exact IH].
  cbn [length]. apply same_key_tag in Hkey.
  assert (Hnone : List.filter
                    (fun q => Pandas.same_key c (Value (JString (fst q)))) names
                  = []).
  { destruct (List.filter _ names) as [ | q found] eqn:Hfound; [reflexivity | ].
    exfalso. assert (Hq : In q (q :: found)) by now left.
    rewrite <- Hfound in Hq. apply filter_In in Hq. destruct Hq as [Hq Hkey'].
    apply same_key_tag in Hkey'. apply Hnotin, list_elem_of_In, in_map_iff.
    exists q. split; [congruence | exact Hq]. }
  rewrite Hnone. cbn. lia.
Qed.

(** X17. The left join with the names drops no row of the spending
    table, and when the products looked up are pairwise distinct it
    duplicates none: the joined table has exactly the rows of the spending
    table, each with one more cell. A product given twice in the URL has
    two name records, and each of its rows then appears twice. *)
Theorem merge_left_row_count (left merged : DataFrame)
    (names : list (string * json)) :
  names <> [] ->
  Pandas.merge_left "num_id" left
    (Pandas.of_records (map (fun p => name_record (fst p) (snd p)) names))
  = Ok merged ->
  length (rows left) <= length (rows merged)
  /\ (NoDup (map fst names) ->
      length (rows merged) = length (rows left)
      /\ exists cells, length cells = length (rows left)
                       /\ rows merged
                          = map (fun rc => fst rc ++ [snd rc])
                                (combine (rows left) cells)).
Proof.
  intros Hnames Hmerge.
  destruct (merge_left_names_rows left merged names Hnames Hmerge)
    as (i & _ & ->).
  split.
  - induction (rows left) as [ | lrow lrows IH]; [cbn; lia | ].
    cbn [flat_map length]. rewrite length_app.
    assert (1 <= length (joined_rows names i lrow)); [ | lia].
    unfold joined_rows. destruct (List.filter _ names); cbn; lia.
  - intros Hdistinct.
    assert (Hone : forall lrow, exists c, joined_rows names i lrow = [lrow ++ [c]]).
    { intros lrow. unfold joined_rows.
      pose proof (filter_key_NoDup names (nth i lrow NaN) Hdistinct) as Hle.
      destruct (List.filter _ names) as [ | p [ | q found]];
        [now exists NaN | now exists (Value (snd p)) | cbn in Hle; lia]. }
    induction (rows left) as [ | lrow lrows IH]; [split; [reflexivity | now exists []] | ].
    destruct IH as [Hlen (cells & Hcells & Hrows)].
    destruct (Hone lrow) as [c Hc].
    cbn [flat_map]. rewrite Hc. cbn [app length]. split; [now rewrite Hlen | ].
    exists (c :: cells). split; [cbn; now rewrite Hcells | ].
    cbn [combine map fst snd]. now rewrite Hrows.
Qed.

Lemma merge_left_row_count_witness :
  length (rows {| columns := ["items"; "num_id"];
                  rows := [[Value (JNumber "3"); Value (JString "0407010H0")];
                           [Value (JNumber "7"); Value (JString "0212000AA")]] |})
  <= length (rows {| columns := ["items"; "num_id"; "name"];
                     rows := [[Value (JNumber "3"); Value (JString "0407010H0");
                               Value (JString "Tramadol")];
                              [Value (JNumber "7"); Value (JString "0212000AA");
                               Value (JString EmptyString)]] |})
  /\ (NoDup (map fst [("0407010H0", JString "Tramadol");
                      ("0212000AA", JString EmptyString)]) ->
      length (rows {| columns := ["items"; "num_id"; "name"];
                      rows := [[Value (JNumber "3"); Value (JString "0407010H0");
                                Value (JString "Tramadol")];
                               [Value (JNumber "7"); Value (JString "0212000AA");
                                Value (JString EmptyString)]] |})
      = length (rows {| columns := ["items"; "num_id"];
                        rows := [[Value (JNumber "3"); Value (JString "0407010H0")];
                                 [Value (JNumber "7"); Value (JString "0212000AA")]] |})
      /\ exists cells,
          length cells
          = length (rows {| columns := ["items"; "num_id"];
                            rows := [[Value (JNumber "3"); Value (JString "0407010H0")];
                                     [Value (JNumber "7"); Value (JString "0212000AA")]] |})
          /\ rows {| columns := ["items"; "num_id"; "name"];
                     rows := [[Value (JNumber "3"); Value (JString "0407010H0");
                               Value (JString "Tramadol")];
                              [Value (JNumber "7"); Value (JString "0212000AA");
                               Value (JString EmptyString)]] |}
             = map (fun rc => fst rc ++ [snd rc])
                   (combine
                      (rows {| columns := ["items"; "num_id"];
                               rows := [[Value (JNumber "3");
                                         Value (JString "0407010H0")];
                                        [Value (JNumber "7");
                                         Value (JString "0212000AA")]] |})
                      cells)).
Proof.
  apply (merge_left_row_count
           {| columns := ["items"; "num_id"];
              rows := [[Value (JNumber "3"); Value (JString "0407010H0")];
                       [Value (JNumber "7"); Value (JString "0212000AA")]] |}
           {| columns := ["items"; "num_id"; "name"];
              rows := [[Value (JNumber "3"); Value (JString "0407010H0");
                        Value (JString "Tramadol")];
                       [Value (JNumber "7"); Value (JString "0212000AA");
                        Value (JString EmptyString)]] |}
           [("0407010H0", JString "Tramadol");
            ("0212000AA", JString EmptyString)]).
  - discriminate.
  - vm_compute. reflexivity.
Defined.

(** When the spending table has the column [num_id] and no column
    called [name], the join with the names cannot fail: it adds the
    column [name] after the columns of the spending table, none of which
    is renamed. *)
Lemma merge_left_adds_name (left : DataFrame) (names : list (string * json)) :
  names <> [] ->
  Pandas.has_label "num_id" (columns left) = true ->
  Pandas.has_label "name" (columns left) = false ->
  exists merged,
    Pandas.merge_left "num_id" left
      (Pandas.of_records (map (fun p => name_record (fst p) (snd p)) names))
    = Ok merged
    /\ columns merged = columns left ++ ["name"].
Proof.
  intros Hnames [i Hi]%index_has_label Hname.
  rewrite of_records_names by assumption.
  unfold Pandas.merge_left. cbn [columns rows]. rewrite Hi.
  change (Pandas.index "num_id" ["num_id"; "name"]) with (Some 0).
  change (Pandas.without "num_id" ["num_id"; "name"]) with ["name"].
  cbv beta iota.
  assert (Hleft : map (fun l => if negb (String.eqb l "num_id")
                                   && Pandas.has_label l (columns left)
                                   && Pandas.has_label l ["name"]
                                then (l ++ "_x")%string else l) (columns left)
                  = columns left).
  { rewrite <- (List.map_id (columns left)) at 2. apply map_ext_in.
    intros l Hl. destruct (String.eqb_spec l "name") as [-> | Hne].
    - apply has_label_In in Hl. congruence.
    - unfold Pandas.has_label at 2. cbn [existsb].
      apply String.eqb_neq in Hne. rewrite Hne.
      now rewrite orb_false_r, andb_false_r. }
  rewrite Hleft. cbn [map]. rewrite Hname. cbn [negb andb].
  rewrite new_duplicates_same. cbn [orb].
  change (Pandas.new_duplicates ["name"] ["name"]) with false.
  eexists. split; reflexivity.
Qed.


(** ** Runs that complete *)

Lemma add_labels_has (seen new : list string) (label : string) :
  Pandas.has_label label (Pandas.add_labels seen new)
  = Pandas.has_label label seen || Pandas.has_label label new.
Proof.
  unfold Pandas.add_labels. revert seen.
  induction new as [ | l new IH]; intros seen.
  - cbn. now rewrite orb_false_r.
  - cbn [fold_left]. rewrite IH.
    change (Pandas.has_label label (l :: new))
      with (String.eqb label l || Pandas.has_label label new).
    destruct (Pandas.has_label l seen) eqn:Hl.
    + destruct (String.eqb_spec label l) as [-> | Hne]; [ | reflexivity].
      now rewrite Hl.
    + rewrite has_label_app.
      change (Pandas.has_label label [l]) with (String.eqb label l || false).
      now rewrite orb_false_r, orb_assoc.
Qed.

Lemma fold_add_labels_has (lists : list (list string)) (seen : list string)
    (label : string) :
  Pandas.has_label label (fold_left Pandas.add_labels lists seen)
  = Pandas.has_label label seen || existsb (Pandas.has_label label) lists.
Proof.
  revert seen. induction lists as [ | new lists IH]; intros seen.
  - cbn. now rewrite orb_false_r.
  - cbn [fold_left existsb]. now rewrite IH, add_labels_has, orb_assoc.
Qed.

Lemma dict_find_label (key : string) (r : record) :
  dict_find key r = None -> Pandas.has_label key (map fst r) = false.
Proof.
  unfold Pandas.has_label.
  induction r as [ | [k v] r IH]; [reflexivity | ].
  cbn [dict_find map fst existsb]. rewrite (String.eqb_sym key k).
  destruct (String.eqb k key); [discriminate | exact IH].
Qed.

(** A spending answer without a field [name] gives a frame without a
    column [name]. *)
Lemma spending_frame_without_name (data : list record) (num_id : string) :
  Forall (fun r => dict_find "name" r = None) data ->
  Pandas.has_label "name"
    (columns (Pandas.setitem "num_id" (JString num_id) (Pandas.of_records data)))
  = false.
Proof.
  intros Hdata.
  assert (Hrecords : Pandas.has_label "name" (columns (Pandas.of_records data))
                     = false).
  { unfold Pandas.of_records. cbn [columns]. rewrite fold_add_labels_has.
    cbn [Pandas.has_label existsb orb].
    apply not_true_is_false. rewrite existsb_exists.
    intros (labels & [r [<- Hr]]%in_map_iff & Hlabels).
    rewrite Forall_forall in Hdata.
    specialize (Hdata r (proj2 (list_elem_of_In _ _) Hr)).
    apply dict_find_label in Hdata. congruence. }
  unfold Pandas.setitem.
  destruct (Pandas.index "num_id" (columns (Pandas.of_records data)));
    cbn [columns]; [exact Hrecords | ].
  rewrite has_label_app, Hrecords. reflexivity.
Qed.

Lemma concat_without_label (df : DataFrame) (frames : list DataFrame)
    (label : string) :
  Forall (fun d => Pandas.has_label label (columns d) = false) (df :: frames) ->
  exists all,
    Pandas.concat (df :: frames) = Ok all
    /\ Pandas.has_label label (columns all) = false.
Proof.
  intros Hframes. eexists. split; [reflexivity | ]. cbn [columns].
  rewrite fold_add_labels_has. cbn [Pandas.has_label existsb orb].
  apply not_true_is_false. rewrite existsb_exists.
  intros (labels & [d [<- Hd]]%in_map_iff & Hlabels).
  rewrite Forall_forall in Hframes.
  specialize (Hframes d (proj2 (list_elem_of_In _ _) Hd)). congruence.
Qed.

(** With frames that have the column [num_id] and no column [name],
    the branch [if dataframes:] shows the table. *)
Lemma show_results_table (dataframes : list DataFrame)
    (names : list (string * json)) (t : trace) :
  Forall (fun df => Pandas.has_label "num_id" (columns df) = true
                    /\ Pandas.has_label "name" (columns df) = false)
         dataframes ->
  dataframes <> [] -> names <> [] ->
  exists final_df,
    show_results dataframes
      (Pandas.of_records (map (fun p => name_record (fst p) (snd p)) names)) t
    = (t ++ [St_dataframe final_df; St_download_link final_df], Ok tt).
Proof.
  intros Hframes Hdfs Hnames.
  destruct dataframes as [ | df dataframes]; [congruence | ].
  assert (Hdf : Pandas.has_label "num_id" (columns df) = true).
  { apply Forall_cons in Hframes. tauto. }
  assert (Hnoname : Forall (fun d => Pandas.has_label "name" (columns d) = false)
                           (df :: dataframes)).
  { apply (Forall_impl _ _ _ Hframes). tauto. }
  destruct (concat_has_label df dataframes "num_id" Hdf) as (all & Hconcat & Hall).
  destruct (concat_without_label df dataframes "name" Hnoname)
    as (all' & Hconcat' & Hall').
  rewrite Hconcat in Hconcat'. injection Hconcat' as <-.
  destruct (merge_left_adds_name all names Hnames Hall Hall')
    as (merged & Hmerge & _).
  destruct (getitem_reordered merged) as [final_df Hfinal].
  exists final_df. unfold show_results.
  rewrite Hconcat, bind_lift_ok, Hmerge, bind_lift_ok, Hfinal, bind_lift_ok.
  rewrite bind_emit, emit_run, <- app_assoc. reflexivity.
Qed.

(** X18. With a budget within the ceiling, a service that answers every
    request and spending answers without a field called [name], every
    run ends normally, after exactly the planned requests; with an
    organisation and a product it ends with the table and the link. *)
Theorem extract_data_completes
    (api : trace -> string -> option (list record))
    (org : string) (org_ids num_ids : list string) (t : trace) :
  answers api ->
  calculate_api_calls org_ids num_ids <= API_CALL_LIMIT ->
  (forall t' org_id num_id data,
      api t' (spending_url num_id org_id org) = Some data ->
      Forall (fun r => dict_find "name" r = None) data) ->
  exists es,
    extract_data api org org_ids num_ids t = (t ++ es, Ok tt)
    /\ List.filter is_request es = planned_requests org org_ids num_ids
    /\ (org_ids <> [] -> num_ids <> [] ->
        exists final_df es0,
          es = es0 ++ [St_dataframe final_df; St_download_link final_df]).
Proof.
  intros Hanswers Hbudget Hspending.
  destruct (extract_data_loops api
              (fun df => Pandas.has_label "name" (columns df) = false)
              org org_ids num_ids t Hbudget)
    as (es & r & Hrun & Hshape).
  { intros t' org_id num_id data Hdata.
    apply spending_frame_without_name. now apply (Hspending t' org_id num_id). }
  destruct Hshape
    as [(_ & (t' & url & Hnone) & _)
       | (es0 & dfs & names & Hreqs & _ & _ & Hframes & Hnames & Hdfs & Hshow)].
  { destruct (Hanswers t' url) as [data Hdata]. congruence. }
  destruct dfs as [ | df dfs].
  - cbn in Hshow. unfold emit in Hshow. rewrite <- app_assoc in Hshow.
    apply run_emitted_unique in Hshow. destruct Hshow as [<- <-].
    exists (es0 ++ [St_write [Lit "No data returned from API calls."]]).
    split; [exact Hrun | ]. split.
    + rewrite List.filter_app, Hreqs. cbn. now rewrite app_nil_r.
    + intros Horg Hnum. exfalso.
      destruct (proj1 Hdfs eq_refl); contradiction.
  - destruct (show_results_table (df :: dfs) names (t ++ es0) Hframes)
      as [final_df Hfinal]; [discriminate | now apply Hnames | ].
    rewrite Hfinal, <- app_assoc in Hshow.
    apply run_emitted_unique in Hshow. destruct Hshow as [<- <-].
    exists (es0 ++ [St_dataframe final_df; St_download_link final_df]).
    split; [exact Hrun | ]. split.
    + rewrite List.filter_app, Hreqs. cbn. now rewrite app_nil_r.
    + intros _ _. now exists final_df, es0.
Qed.

Lemma extract_data_completes_witness :
  exists es,
    extract_data silent_api "ccg" ["03Q"; "15N"] ["0407010H0"] []
    = ([] ++ es, Ok tt)
    /\ List.filter is_request es
       = planned_requests "ccg" ["03Q"; "15N"] ["0407010H0"]
    /\ (["03Q"; "15N"] <> [] -> ["0407010H0"] <> [] ->
        exists final_df es0,
          es = es0 ++ [St_dataframe final_df; St_download_link final_df]).
Proof.
  apply (extract_data_completes silent_api "ccg" ["03Q"; "15N"] ["0407010H0"] []).
  - intros t url. exists []. reflexivity.
  - vm_compute. lia.
  - intros t' org_id num_id data [= <-]. constructor.
Defined.

(** ** The reordering, on any list *)

(** X19. The reordering loop returns a permutation of the labels it is
    given, whether or not they are distinct: nothing is lost, added or
    repeated, and the number of columns stays the same. *)
Theorem reorder_columns_permutation (cols : list string) :
  Permutation (reorder_columns cols) cols
  /\ length (reorder_columns cols) = length cols
  /\ forall col, In col (reorder_columns cols) <-> In col cols.
Proof.
  pose proof (fold_move_last_Permutation moved_columns cols) as Hperm.
  fold (reorder_columns cols) in Hperm.
  split; [exact Hperm | ]. split; [now apply Permutation_length | ].
  intros col. split; apply Permutation_in; [exact Hperm | now symmetry].
Qed.


(** ** The fragment of a URL *)

Lemma after_hash_cons (c : ascii) (s : string) :
  Ascii.eqb c "#" = false -> after_hash (String c s) = after_hash s.
Proof.
  intros Hc. unfold after_hash. cbn [Str.split_once]. rewrite Hc.
  now destruct (Str.split_once "#" s) as [[before after] | ].
Qed.

Lemma after_hash_hash (s : string) : after_hash (String "#" s) = s.
Proof. reflexivity. Qed.

Lemma after_hash_lstrip (s : string) :
  after_hash (Str.lstrip c0_control_or_space s) = after_hash s.
Proof.
  induction s as [ | c s IH]; [reflexivity | ].
  cbn [Str.lstrip]. destruct (c0_control_or_space c) eqn:Hc; [ | reflexivity].
  rewrite IH, after_hash_cons; [reflexivity | ].
  destruct (Ascii.eqb_spec c "#") as [-> | ]; [discriminate | reflexivity].
Qed.

Lemma after_hash_remove (old : ascii) (s : string) :
  Ascii.eqb old "#" = false ->
  after_hash (Str.remove old s) = Str.remove old (after_hash s).
Proof.
  intros Hold. induction s as [ | c s IH]; [reflexivity | ].
  cbn [Str.remove]. destruct (Ascii.eqb_spec c "#") as [-> | Hne].
  - rewrite Ascii.eqb_sym, Hold. reflexivity.
  - apply Ascii.eqb_neq in Hne. rewrite (after_hash_cons c s Hne).
    destruct (Ascii.eqb c old); [exact IH | ].
    now rewrite (after_hash_cons c _ Hne).
Qed.

Lemma after_hash_split_once (p : ascii -> bool) (sep : ascii)
    (s before after : string) :
  p "#"%char = false -> Ascii.eqb sep "#" = false ->
  Str.split_once sep s = Some (before, after) ->
  Str.all p before = true ->
  after_hash after = after_hash s.
Proof.
  intros Hp Hsep. revert before.
  induction s as [ | c s IH]; intros before; [discriminate | ].
  cbn [Str.split_once].
  destruct (Ascii.eqb_spec c sep) as [-> | Hne].
  - intros [= <- <-] _. now rewrite after_hash_cons.
  - destruct (Str.split_once sep s) as [[b a] | ]; [ | discriminate].
    intros [= <- <-]. cbn [Str.all]. intros [Hc Hb]%andb_true_iff.
    rewrite after_hash_cons; [now apply (IH b) | ].
    destruct (Ascii.eqb_spec c "#") as [-> | ]; [congruence | reflexivity].
Qed.

Lemma after_hash_drop_scheme (url : string) :
  after_hash (drop_scheme url) = after_hash url.
Proof.
  unfold drop_scheme. destruct url as [ | c0 rest]; [reflexivity | ].
  destruct (Str.split_once ":" (String c0 rest)) as [[before after] | ] eqn:Hsplit;
    [ | reflexivity].
  destruct before as [ | b before]; [reflexivity | ].
  destruct (Str.is_ascii c0 && Str.is_ascii_alpha c0
            && Str.all scheme_char (String b before)) eqn:Hscheme;
    [ | reflexivity].
  apply andb_true_iff in Hscheme. destruct Hscheme as [_ Hall].
  now apply (after_hash_split_once scheme_char ":" _ _ _ eq_refl eq_refl Hsplit).
Qed.

Lemma after_hash_break (stop : ascii -> bool) (s : string) :
  stop "#"%char = true -> after_hash (snd (Str.break stop s)) = after_hash s.
Proof.
  intros Hstop. induction s as [ | c s IH]; [reflexivity | ].
  cbn [Str.break]. destruct (stop c) eqn:Hc; [reflexivity | ].
  destruct (Str.break stop s) as [before after]. cbn [snd] in IH |- *.
  rewrite IH, after_hash_cons; [reflexivity | ].
  destruct (Ascii.eqb_spec c "#") as [-> | ]; [congruence | reflexivity].
Qed.

Lemma after_hash_netloc (url : string) :
  after_hash (snd (match url with
                   | String "/" (String "/" rest) => splitnetloc rest
                   | _ => (EmptyString, url)
                   end))
  = after_hash url.
Proof.
  destruct url as [ | a url']; [reflexivity | ].
  destruct a as [[] [] [] [] [] [] [] []]; try reflexivity.
  destruct url' as [ | b rest]; [reflexivity | ].
  destruct b as [[] [] [] [] [] [] [] []]; try reflexivity.
  unfold splitnetloc. rewrite after_hash_break by reflexivity.
  now rewrite !after_hash_cons.
Qed.

(** X20. Of an accepted URL only the text after the first [#] counts:
    the fragment handed to [parse_qs] is that text without its tabs and
    line breaks, whatever scheme, host, path and query precede it. *)
Theorem urlparse_fragment_after_hash
    (check_bracketed_netloc check_nfkc_netloc : string -> bool)
    (unquote_escaped : string -> string)
    (url : string) (query_components : gmap string (list string)) :
  parse_url check_bracketed_netloc check_nfkc_netloc unquote_escaped url
  = Ok query_components ->
  urlparse_fragment check_bracketed_netloc check_nfkc_netloc url
  = Ok (without_breaks (after_hash url))
  /\ query_components
     = parse_qs unquote_escaped (without_breaks (after_hash url)).
Proof.
  intros Hparse. unfold parse_url in Hparse.
  destruct (urlparse_fragment check_bracketed_netloc check_nfkc_netloc url)
    as [fragment | ] eqn:Hfragment; [ | discriminate].
  injection Hparse as <-.
  assert (Hf : fragment = without_breaks (after_hash url)); [ | now subst].
  unfold urlparse_fragment in Hfragment.
  set (cleaned := drop_scheme
                    (Str.remove "010"
                       (Str.remove "013"
                          (Str.remove "009"
                             (Str.lstrip c0_control_or_space url))))) in *.
  assert (Hcleaned : after_hash cleaned = without_breaks (after_hash url)).
  { subst cleaned. rewrite after_hash_drop_scheme.
    rewrite !after_hash_remove by reflexivity.
    now rewrite after_hash_lstrip. }
  rewrite <- Hcleaned, <- (after_hash_netloc cleaned).
  clear Hcleaned. clearbody cleaned.
  destruct (match cleaned with
            | String "/" (String "/" rest) => splitnetloc rest
            | _ => (EmptyString, cleaned)
            end) as [netloc rest].
  cbn [snd]. unfold after_hash.
  repeat match type of Hfragment with
         | context [if ?cond then _ else _] => destruct cond
         end; congruence.
Qed.

Lemma urlparse_fragment_after_hash_witness :
  urlparse_fragment accept_netloc accept_netloc
    "https://openprescribing.net/analyse/?x=1#org=CCG&orgIds=03Q&numIds=0407010H0"
  = Ok (without_breaks
          (after_hash
             "https://openprescribing.net/analyse/?x=1#org=CCG&orgIds=03Q&numIds=0407010H0"))
  /\ <["numIds" := ["0407010H0"]]> (<["orgIds" := ["03Q"]]> (<["org" := ["CCG"]]> ∅))
     = parse_qs leave_escapes
         (without_breaks
            (after_hash
               "https://openprescribing.net/analyse/?x=1#org=CCG&orgIds=03Q&numIds=0407010H0")).
Proof.
  apply (urlparse_fragment_after_hash accept_netloc accept_netloc leave_escapes
           "https://openprescribing.net/analyse/?x=1#org=CCG&orgIds=03Q&numIds=0407010H0"
           (<["numIds" := ["0407010H0"]]>
              (<["orgIds" := ["03Q"]]> (<["org" := ["CCG"]]> ∅)))).
  vm_compute. reflexivity.
Defined.
